(** * fitdata: the Fitbit client of [fitbit.py]

    A shallow embedding of [fitbit.py]: the SpO2 query [get_spo2], the
    authenticated request [_api_request] with its single refresh-and-retry,
    the token refresh [_refresh_access_token] and the two HTTP helpers
    [_do_resource_get] and [_do_auth_post].

    The program is effectful: it talks to the network through an
    [httpx.Client] and it mutates the caller's [creds] dict in place.  Both
    effects are explicit here.  A computation is a function of a [World]
    (the caller's [creds] object and the log of the requests sent so far)
    that ends in a returned value or in a raised exception, together with
    the world it leaves behind; the network is a deterministic function of
    the history and of the request. *)

From Stdlib Require Import ZArith NArith Ascii Floats.SpecFloat.
From stdpp Require Import base option gmap strings list fin_maps.
From stdpp Require Import pretty.

Local Set Warnings "-register-all".

(** ** Python values

    The objects the program handles are the ones [json.load] and
    [response.json()] produce: None, booleans, integers, floats, strings,
    lists and dicts with string keys. *)

Inductive value : Type :=
  | VNone
  | VBool (b : bool)
  | VInt (n : Z)
  | VFloat (f : spec_float)
  | VStr (s : string)
  | VList (l : list value)
  | VDict (d : gmap string value).

(** Python's truth value of an object ([if not creds]). *)
Definition truthy (v : value) : bool :=
  match v with
  | VNone => false
  | VBool b => b
  | VInt n => negb (n =? 0)%Z
  | VFloat (S754_zero _) => false
  | VFloat _ => true
  | VStr EmptyString => false
  | VStr _ => true
  | VList [] => false
  | VList _ => true
  | VDict d => negb (size d =? 0)%nat
  end.

(** ** Dates: [datetime] and [strftime("%Y-%m-%d")] *)

Record datetime : Type := mkdatetime {
  year : nat;
  month : nat;
  day : nat;
  hour : nat;
  minute : nat;
  second : nat;
  microsecond : nat
}.

Definition digit (n : nat) : ascii := ascii_of_nat (48 + n mod 10).

Definition pad2 (n : nat) : string :=
  String (digit (n / 10)) (String (digit n) EmptyString).

Definition pad4 (n : nat) : string :=
  String (digit (n / 1000)) (String (digit (n / 100)) (pad2 n)).

(** [d.strftime("%Y-%m-%d")].  CPython hands the format to the [strftime]
    of the C library; on Linux [%Y] is the year in decimal with no padding,
    so a year below 1000 comes out on fewer than four digits ([999-01-01]).
    [%m] and [%d] are zero padded to two digits. *)
Definition strftime_Y_m_d (d : datetime) : string :=
  pretty (year d) +:+ "-" +:+ pad2 (month d) +:+ "-" +:+ pad2 (day d).

(** [d.isoformat()], which is also [str(d.date())]: the text [YYYY-MM-DD],
    the year zero padded to four digits, the month and the day to two
    (CPython formats it with [%04d-%02d-%02d]). *)
Definition isoformat (d : datetime) : string :=
  pad4 (year d) +:+ "-" +:+ pad2 (month d) +:+ "-" +:+ pad2 (day d).

(** The years that [%Y] prints on four digits. *)
Definition four_digit_year (d : datetime) : Prop :=
  (1000 ≤ Z.of_nat (year d) ≤ 9999)%Z.

(** ** Base64 ([base64.b64encode])

    A Python [str] is represented by its UTF-8 bytes, so [str.encode()] and
    [bytes.decode()] are the identity on the representation. *)

(** [s.encode("ascii")] succeeds: the text has no character beyond ASCII,
    that is no byte from 128 on. *)
Fixpoint ascii_only (s : string) : bool :=
  match s with
  | EmptyString => true
  | String c rest => (N_of_ascii c <? 128)%N && ascii_only rest
  end.

Definition b64_char (n : N) : ascii :=
  if (n <? 26)%N then ascii_of_N (65 + n)
  else if (n <? 52)%N then ascii_of_N (97 + (n - 26))
  else if (n <? 62)%N then ascii_of_N (48 + (n - 52))
  else if (n =? 62)%N then "+"%char
  else "/"%char.

Fixpoint b64encode (s : string) : string :=
  match s with
  | EmptyString => EmptyString
  | String a EmptyString =>
      let x := N_of_ascii a in
      String (b64_char (x / 4))
        (String (b64_char ((x mod 4) * 16)) "==")
  | String a (String b EmptyString) =>
      let x := N_of_ascii a in
      let y := N_of_ascii b in
      String (b64_char (x / 4))
        (String (b64_char ((x mod 4) * 16 + y / 16))
           (String (b64_char ((y mod 16) * 4)) "="))
  | String a (String b (String c rest)) =>
      let x := N_of_ascii a in
      let y := N_of_ascii b in
      let z := N_of_ascii c in
      String (b64_char (x / 4))
        (String (b64_char ((x mod 4) * 16 + y / 16))
           (String (b64_char ((y mod 16) * 4 + z / 64))
              (String (b64_char (z mod 64)) (b64encode rest))))
  end.

Definition encode (s : string) : string := s.
Definition decode (s : string) : string := s.

(** ** HTTP: requests, responses and the network *)

Inductive Method : Type := GET | POST.

Record Request : Type := mkRequest {
  method : Method;
  url : string;
  headers : gmap string string;
  data : option (gmap string value)
}.

(** An [httpx.Response]: its status code and what [response.json()] gives,
    [None] when the body cannot be decoded (the call then raises: a
    [json.JSONDecodeError], or a [UnicodeDecodeError] when the bytes are not
    UTF-8; both are [ValueError]s and the program catches neither). *)
Record Response : Type := mkResponse {
  status_code : Z;
  json : option value
}.

(** What a request handed to the transport comes back with: a response, or
    no response at all (an [httpx.TransportError]: connection refused,
    timeout, protocol error, ...). *)
Inductive Reply : Type :=
  | Responded (r : Response)
  | NoResponse (error : string).

Definition Event : Type := Request * Reply.

(** [httpx.Client(timeout=10)]. *)
Record Client : Type := mkClient { timeout : Z }.

(** The network answers a request of a client in view of everything that
    was sent before. *)
Definition Network : Type := Client → list Event → Request → Reply.

(** [is_success] of httpx: the 2xx codes. *)
Definition is_success (r : Response) : bool :=
  (200 <=? status_code r)%Z && (status_code r <=? 299)%Z.

(** ** Exceptions *)

Inductive exn : Type :=
  | CredentialsError (args : list value) (cause : option exn)
  | HTTPStatusError (response : Response)
  | TransportError (error : string)
  | UnicodeEncodeError
  | JSONDecodeError
  | KeyError (key : string)
  | TypeError
  | AttributeError.

(** ** The computation monad: state, log and exceptions *)

Record World : Type := mkWorld {
  creds : value;
  log : list Event
}.

Inductive Result (A : Type) : Type :=
  | Return (a : A)
  | Raise (e : exn).
Arguments Return {A} a.
Arguments Raise {A} e.

Definition M (A : Type) : Type := World → Result A * World.

Definition ret {A} (a : A) : M A := fun w => (Return a, w).

Definition raise {A} (e : exn) : M A := fun w => (Raise e, w).

Definition bind {A B} (m : M A) (k : A → M B) : M B :=
  fun w =>
    match m w with
    | (Return a, w') => k a w'
    | (Raise e, w') => (Raise e, w')
    end.

(** [try: m except E as ex: h ex]: the handler says which exceptions it
    catches; the others pass through. *)
Definition try_except {A} (m : M A) (h : exn → option (M A)) : M A :=
  fun w =>
    match m w with
    | (Return a, w') => (Return a, w')
    | (Raise e, w') =>
        match h e with
        | Some k => k w'
        | None => (Raise e, w')
        end
    end.

#[global] Instance M_ret : MRet M := @ret.
#[global] Instance M_bind : MBind M := fun A B k m => bind m k.

(** *** Operations on Python objects *)

(** ["prefix" + v]: only a [str] can be added to a [str]. *)
Definition str_add (prefix : string) (v : value) : M string :=
  match v with
  | VStr s => ret (prefix +:+ s)
  | _ => raise TypeError
  end.

(** [obj[key]] for a string key. *)
Definition getitem (obj : value) (key : string) : M value :=
  match obj with
  | VDict d =>
      match d !! key with
      | Some v => ret v
      | None => raise (KeyError key)
      end
  | _ => raise TypeError
  end.

(** *** The caller's [creds] object *)

(** [creds.get(key, default)]. *)
Definition creds_get (key : string) (dflt : value) : M value :=
  fun w =>
    match creds w with
    | VDict d => (Return (default dflt (d !! key)), w)
    | _ => (Raise AttributeError, w)
    end.

(** [creds[key]]. *)
Definition creds_getitem (key : string) : M value :=
  fun w => getitem (creds w) key w.

(** [creds[key] = v]: the caller's dict is updated in place. *)
Definition creds_setitem (key : string) (v : value) : M unit :=
  fun w =>
    match creds w with
    | VDict d => (Return tt, mkWorld (VDict (<[key := v]> d)) (log w))
    | _ => (Raise TypeError, w)
    end.

(** [not creds]. *)
Definition creds_falsy : M bool :=
  fun w => (Return (negb (truthy (creds w))), w).

(** ** Reading a log *)

Definition event_method (ev : Event) : Method := method ev.1.

(** The status code a request was answered with, if it was answered. *)
Definition event_status (ev : Event) : option Z :=
  match ev.2 with
  | Responded r => Some (status_code r)
  | NoResponse _ => None
  end.

(** The JSON body a request was answered with, if any. *)
Definition event_json (ev : Event) : option value :=
  match ev.2 with
  | Responded r => json r
  | NoResponse _ => None
  end.

(** [obj.get(key)] as a partial lookup: the field of a dict, nothing
    elsewhere. *)
Definition field (obj : value) (key : string) : option value :=
  match obj with
  | VDict d => d !! key
  | _ => None
  end.

(** [after] is [before] up to the fields listed in [keys]: a dict is
    still a dict with every other field as it was, anything else is the
    same object. *)
Definition unchanged_outside (keys : list string) (before after : value) : Prop :=
  match before with
  | VDict d => ∃ d', after = VDict d' ∧ ∀ k, k ∉ keys → d' !! k = d !! k
  | _ => after = before
  end.

(** ** Scripted networks

    A network that answers the k-th request it sees with the k-th reply of
    a script, whatever the request; past the end of the script nothing
    answers. *)

Definition scripted (script : list Reply) : Network :=
  fun _ history _ => default (NoResponse "ConnectError") (script !! length history).

(** ** The host of the command line: console, files, sheet, clock

    [main.py] and [sheets.py] run the fetch in a process that prints,
    reads and writes the credentials file, and talks to a Google sheet
    through gspread.  What the process does is kept in a [Process]; what
    the outside answers is a [Host]. *)

(** A row of the sheet: [(dateTime, min, max, avg)]. *)
Definition Row : Type := value * value * value * value.

(** How a run ends when it does not end well: an exception of the
    program, [exit(code)], or an exception of the host (gspread, the file
    system, [datetime]), known by its name. *)
Inductive failure : Type :=
  | Raised (e : exn)
  | SystemExit (code : Z)
  | HostError (error : string).

Record Host : Type := mkHost {
  (** [GOOGLE_AUTH.exists()] *)
  google_auth_exists : bool;
  (** the error of [gspread.oauth(...)] and [gc.open(name).sheet1], if any *)
  gspread_open : string → option string;
  (** [json.load] on [FITBIT_CREDS.open()]: the value, or an error *)
  creds_file_load : value + string;
  (** [datetime.now()] *)
  datetime_now : datetime;
  (** the error of writing [FITBIT_CREDS], if any *)
  creds_file_dump : value → option string;
  (** the error of [sheet.append_rows(rows)], if any *)
  gspread_append_rows : list Row → option string
}.

Record Process : Type := mkProcess {
  (** the [creds] object and the requests sent to Fitbit *)
  world : World;
  (** the lines printed *)
  stdout : list string;
  (** what was written to the credentials file *)
  dumped : list value;
  (** the calls of [append_rows], each with its rows *)
  append_calls : list (list Row)
}.

Inductive Outcome (A : Type) : Type :=
  | Done (a : A)
  | Failed (f : failure).
Arguments Done {A} a.
Arguments Failed {A} f.

Definition App (A : Type) : Type := Process → Outcome A * Process.

#[global] Instance App_ret : MRet App := fun A a p => (Done a, p).
#[global] Instance App_bind : MBind App :=
  fun A B k m p =>
    match m p with
    | (Done a, p') => k a p'
    | (Failed f, p') => (Failed f, p')
    end.

Definition fail {A} (f : failure) : App A := fun p => (Failed f, p).

(** A computation of the Fitbit layer, run on the process's world. *)
Definition lift {A} (m : M A) : App A :=
  fun p =>
    match m (world p) with
    | (Return a, w) => (Done a, mkProcess w (stdout p) (dumped p) (append_calls p))
    | (Raise e, w) => (Failed (Raised e), mkProcess w (stdout p) (dumped p) (append_calls p))
    end.

Definition print (line : string) : App unit :=
  fun p => (Done tt, mkProcess (world p) (stdout p ++ [line]) (dumped p) (append_calls p)).

(** [creds = json.load(creds_file)]: the object [creds] names from now on. *)
Definition load_creds (host : Host) : App unit :=
  fun p =>
    match creds_file_load host with
    | inl v =>
        (Done tt, mkProcess (mkWorld v (log (world p))) (stdout p) (dumped p) (append_calls p))
    | inr error => (Failed (HostError error), p)
    end.

(** [json.dump(creds, creds_file)] on the file opened for writing. *)
Definition dump_creds (host : Host) : App unit :=
  fun p =>
    let v := creds (world p) in
    match creds_file_dump host v with
    | None => (Done tt, mkProcess (world p) (stdout p) (dumped p ++ [v]) (append_calls p))
    | Some error => (Failed (HostError error), p)
    end.

(** [sheet.append_rows(rows)]. *)
Definition append_rows (host : Host) (rows : list Row) : App unit :=
  fun p =>
    let p' := mkProcess (world p) (stdout p) (dumped p) (append_calls p ++ [rows]) in
    match gspread_append_rows host rows with
    | None => (Done tt, p')
    | Some error => (Failed (HostError error), p')
    end.

(** *** More of Python: [len], iteration, the day before *)

(** The first byte of a UTF-8 character: the bytes [10xxxxxx] continue
    one. *)
Definition utf8_start (c : ascii) : bool :=
  let n := N_of_ascii c in (n <? 128)%N || (192 <=? n)%N.

(** [len(v)]. *)
Definition py_len (v : value) : App nat :=
  match v with
  | VList l => mret (length l)
  | VDict d => mret (size d)
  | VStr s => mret (length (filter (λ c, utf8_start c = true) (String.list_ascii_of_string s)))
  | _ => fail (Raised TypeError)
  end.

(** [for entry in v]: the elements of a list; the keys of a dict (Python
    goes by insertion order, which a [gmap] does not keep: they come here
    in the order of [map_to_list]); the characters of a string, here its
    bytes. *)
Definition iterate (v : value) : App (list value) :=
  match v with
  | VList l => mret l
  | VDict d => mret ((λ kv, VStr kv.1) <$> map_to_list d)
  | VStr s => mret ((λ c, VStr (String c EmptyString)) <$> String.list_ascii_of_string s)
  | _ => fail (Raised TypeError)
  end.

Definition is_leap (y : nat) : bool :=
  (y mod 4 =? 0)%nat && (negb (y mod 100 =? 0)%nat || (y mod 400 =? 0)%nat).

Definition days_in_month (y m : nat) : nat :=
  match m with
  | 2 => if is_leap y then 29 else 28
  | 4 | 6 | 9 | 11 => 30
  | _ => 31
  end.

(** [d - timedelta(days=1)]; there is no day before 0001-01-01
    ([OverflowError]). *)
Definition minus_one_day (d : datetime) : option datetime :=
  if (1 <? day d)%nat then
    Some (mkdatetime (year d) (month d) (day d - 1)
            (hour d) (minute d) (second d) (microsecond d))
  else if (1 <? month d)%nat then
    Some (mkdatetime (year d) (month d - 1) (days_in_month (year d) (month d - 1))
            (hour d) (minute d) (second d) (microsecond d))
  else if (1 <? year d)%nat then
    Some (mkdatetime (year d - 1) 12 31
            (hour d) (minute d) (second d) (microsecond d))
  else None.

(** [yesterday = datetime.now() - timedelta(days=1)]. *)
Definition yesterday_of (host : Host) : App datetime :=
  match minus_one_day (datetime_now host) with
  | Some d => mret d
  | None => fail (HostError "OverflowError")
  end.

(** *** [sheets.py] *)

(** [open_sheet]: the worksheet it returns is the one sheet of the
    process. *)
Definition open_sheet (host : Host) (sheet_name : string) : App unit :=
  match gspread_open host sheet_name with
  | None => mret tt
  | Some error => fail (HostError error)
  end.

(** One tuple of the list comprehension of [add_spo2_to_sheet]. *)
Definition spo2_row (entry : value) : App Row :=
  date_time ← lift (getitem entry "dateTime");
  value_1 ← lift (getitem entry "value");
  minimum ← lift (getitem value_1 "min");
  value_2 ← lift (getitem entry "value");
  maximum ← lift (getitem value_2 "max");
  value_3 ← lift (getitem entry "value");
  average ← lift (getitem value_3 "avg");
  mret (date_time, minimum, maximum, average).

Definition add_spo2_to_sheet (host : Host) (spo2_data : value) : App unit :=
  entries ← iterate spo2_data;
  rows ← mapM spo2_row entries;
  append_rows host rows.

(** An entry that yields a row: a dict with ["dateTime"] and a dict
    ["value"] holding ["min"], ["max"] and ["avg"]. *)
Definition has_row (entry : value) (row : Row) : Prop :=
  ∃ e v : gmap string value,
    entry = VDict e ∧
    e !! "dateTime" = Some row.1.1.1 ∧
    e !! "value" = Some (VDict v) ∧
    v !! "min" = Some row.1.1.2 ∧
    v !! "max" = Some row.1.2 ∧
    v !! "avg" = Some row.2.

(** The process as it starts: no [creds] object yet, nothing sent,
    printed or written. *)
Definition boot : Process := mkProcess (mkWorld VNone []) [] [] [].

(** ** Fixtures

    The credentials, dates, bodies and networks the examples at the end of
    the file run the program on. *)

Definition day_2024_01_01 : datetime := mkdatetime 2024 1 1 0 0 0 0.
Definition day_2024_01_02 : datetime := mkdatetime 2024 1 2 0 0 0 0.

(** [creds] as the authorization flow stores it, with an expired access
    token. *)
Definition stored_creds : gmap string value :=
  <["client_id" := VStr "A"]>
    (<["client_secret" := VStr "B"]>
       (<["access_token" := VStr "expired"]>
          {[ "refresh_token" := VStr "R1" ]})).

Definition creds_without_refresh : gmap string value :=
  <["client_id" := VStr "A"]>
    (<["client_secret" := VStr "B"]>
       {[ "access_token" := VStr "expired" ]}).

Definition fresh_tokens : gmap string value :=
  <["access_token" := VStr "new"]> {[ "refresh_token" := VStr "R2" ]}.

(** [[{"dateTime": "2024-01-01", "value": {"avg": 94.2, "min": 89.0,
    "max": 98.1}}]], the floats as binary64. *)
Definition spo2_records : value :=
  VList
    [VDict
       (<["dateTime" := VStr "2024-01-01"]>
          {[ "value" :=
               VDict
                 (<["avg" := VFloat (S754_finite false 6628735701535949 (-46))]>
                    (<["min" := VFloat (S754_finite false 6262818231812096 (-46))]>
                       {[ "max" := VFloat (S754_finite false 6903173803828838 (-46)) ]})) ]})].

Definition error_body : value := VDict {[ "success" := VBool false ]}.

Definition unauthorized : Reply := Responded (mkResponse 401 (Some error_body)).
Definition bad_request : Reply := Responded (mkResponse 400 (Some error_body)).
Definition forbidden : Reply := Responded (mkResponse 403 (Some error_body)).
Definition server_error : Reply := Responded (mkResponse 500 (Some error_body)).
(** A gateway's 502 with an HTML page: the body is not JSON. *)
Definition bad_gateway : Reply := Responded (mkResponse 502 None).
Definition granted : Reply := Responded (mkResponse 200 (Some (VDict fresh_tokens))).
Definition records_found : Reply := Responded (mkResponse 200 (Some spo2_records)).

(** A resource server that rejects the first GET and accepts the later
    ones, with a token endpoint that grants every refresh. *)
Definition expired_then_fresh : Network :=
  fun _ history req =>
    match method req with
    | POST => granted
    | GET =>
        match history with
        | [] => unauthorized
        | _ => records_found
        end
    end.

(** The [creds] of a file whose access token is a JSON null. *)
Definition null_token_creds : gmap string value :=
  <["access_token" := VNone]> stored_creds.

Definition creds_without_client_id : gmap string value :=
  <["client_secret" := VStr "B"]>
    (<["access_token" := VStr "expired"]>
       {[ "refresh_token" := VStr "R1" ]}).

(** Answers of a token endpoint that are 2xx and of no use. *)
Definition granted_without_refresh : Reply :=
  Responded (mkResponse 200 (Some (VDict {[ "access_token" := VStr "new" ]}))).
Definition granted_a_list : Reply := Responded (mkResponse 200 (Some (VList []))).
Definition granted_a_number : Reply :=
  Responded
    (mkResponse 200
       (Some (VDict (<["access_token" := VInt 7]> {[ "refresh_token" := VStr "R2" ]})))).

Definition first_record : value :=
  VDict
    (<["dateTime" := VStr "2024-01-01"]>
       {[ "value" :=
            VDict
              (<["avg" := VFloat (S754_finite false 6628735701535949 (-46))]>
                 (<["min" := VFloat (S754_finite false 6262818231812096 (-46))]>
                    {[ "max" := VFloat (S754_finite false 6903173803828838 (-46)) ]})) ]}).

Definition first_row : Row :=
  (VStr "2024-01-01",
   VFloat (S754_finite false 6262818231812096 (-46)),
   VFloat (S754_finite false 6903173803828838 (-46)),
   VFloat (S754_finite false 6628735701535949 (-46))).

(** An entry without ["value"]. *)
Definition date_only_record : value := VDict {[ "dateTime" := VStr "2024-01-02" ]}.

(** A host with its files in place that takes every write, on the morning
    of 2024-03-01. *)
Definition ready_host : Host :=
  mkHost true (fun _ => None) (inl (VDict stored_creds))
    (mkdatetime 2024 3 1 8 30 0 0) (fun _ => None) (fun _ => None).

Definition host_without_google_auth : Host :=
  mkHost false (fun _ => None) (inl (VDict stored_creds))
    (mkdatetime 2024 3 1 8 30 0 0) (fun _ => None) (fun _ => None).

Definition day_2024_02_29 : datetime := mkdatetime 2024 2 29 8 30 0 0.

(** The last day of a year of three digits, and the day after it. *)
Definition day_0999_12_31 : datetime := mkdatetime 999 12 31 0 0 0 0.
Definition day_1000_01_01 : datetime := mkdatetime 1000 1 1 0 0 0 0.

(** An access token with a character beyond ASCII: [tök], the [ö] as its
    two UTF-8 bytes. *)
Definition umlaut_token : string :=
  String "t" (String (ascii_of_nat 195) (String (ascii_of_nat 182) "k")).

Definition granted_an_umlaut : Reply :=
  Responded
    (mkResponse 200
       (Some (VDict (<["access_token" := VStr umlaut_token]>
                       {[ "refresh_token" := VStr "R2" ]})))).

(** A stand-in for [str()] on non-strings; the fixtures hold strings only. *)
Definition no_str : value → string := fun _ => "".

(** ** The program *)

Section Fitbit.

(** [str(v)] of a Python object that is not a [str] (a builtin, it plays
    no part in the control flow). *)
Variable py_str : value → string.

Variable network : Network.

(** [f"{v}"]. *)
Definition format_value (v : value) : string :=
  match v with
  | VStr s => s
  | _ => py_str v
  end.

(** [httpx.Headers(headers)]: httpx encodes the name and the value of
    every header as ASCII when it builds a request. *)
Definition encodable (headers : gmap string string) : bool :=
  map_fold (λ name text ok, ok && ascii_only name && ascii_only text) true headers.

(** [client.request(...)].  The request is built first: a header that is
    not ASCII raises [UnicodeEncodeError] there, and nothing is sent.  A
    request that is built goes out, it is logged with its reply, and a
    missing response raises. *)
Definition send (client : Client) (req : Request) : M Response :=
  fun w =>
    if encodable (headers req) then
      let reply := network client (log w) req in
      let w' := mkWorld (creds w) (log w ++ [(req, reply)]) in
      match reply with
      | Responded r => (Return r, w')
      | NoResponse error => (Raise (TransportError error), w')
      end
    else (Raise UnicodeEncodeError, w).

Definition client_get (client : Client) (url : string)
    (headers : gmap string string) : M Response :=
  send client (mkRequest GET url headers None).

Definition client_post (client : Client) (url : string)
    (headers : gmap string string) (data : gmap string value) : M Response :=
  send client (mkRequest POST url headers (Some data)).

(** [response.raise_for_status()]. *)
Definition raise_for_status (response : Response) : M unit :=
  if is_success response then ret tt else raise (HTTPStatusError response).

(** [response.json()]. *)
Definition response_json (response : Response) : M value :=
  match json response with
  | Some v => ret v
  | None => raise JSONDecodeError
  end.

Definition _do_resource_get (client : Client) (access_token : value)
    (url : string) : M value :=
  authorization ← str_add "Bearer " access_token;
  let headers : gmap string string := {[ "Authorization" := authorization ]} in
  response ← client_get client url headers;
  raise_for_status response ;;
  response_json response.

Definition _do_auth_post (client : Client) (client_id client_secret : value)
    (post_data : gmap string value) : M value :=
  let url := "https://api.fitbit.com/oauth2/token" in
  let auth_value :=
    b64encode (encode (format_value client_id +:+ ":" +:+ format_value client_secret)) in
  let headers : gmap string string :=
    {[ "Authorization" := "Basic " +:+ decode auth_value ]} in
  response ← client_post client url headers post_data;
  raise_for_status response ;;
  response_json response.

Definition _refresh_access_token (client : Client) : M value :=
  refresh_token ← creds_getitem "refresh_token";
  let post_data : gmap string value :=
    <["grant_type" := VStr "refresh_token"]> {[ "refresh_token" := refresh_token ]} in
  client_id ← creds_getitem "client_id";
  client_secret ← creds_getitem "client_secret";
  data ← _do_auth_post client client_id client_secret post_data;
  new_access ← getitem data "access_token";
  creds_setitem "access_token" new_access ;;
  new_refresh ← getitem data "refresh_token";
  creds_setitem "refresh_token" new_refresh ;;
  getitem data "access_token".

Definition _api_request (url_path : string) : M value :=
  no_creds ← creds_falsy;
  if (no_creds : bool) then raise (CredentialsError [] None)
  else
    access_token ← creds_get "access_token" (VStr "");
    let client := mkClient 10 in
    let url := "https://api.fitbit.com/1/user/-/" +:+ url_path in
    try_except (_do_resource_get client access_token url)
      (fun ex =>
         match ex with
         | HTTPStatusError response =>
             Some
               (if (status_code response =? 401)%Z then
                  try_except
                    (access_token ← _refresh_access_token client;
                     _do_resource_get client access_token url)
                    (fun ex' =>
                       match ex' with
                       | HTTPStatusError response' =>
                           Some (body ← response_json response';
                                 raise (CredentialsError [body] (Some ex')))
                       | _ => None
                       end)
                else raise ex)
         | _ => None
         end).

(** [f"spo2/date/{date_str}/{end_str}.json"], after [end = end or date]
    (a [datetime] is always true). *)
Definition spo2_url_path (date : datetime) (end_ : option datetime) : string :=
  let end_ := default date end_ in
  let date_str := strftime_Y_m_d date in
  let end_str := strftime_Y_m_d end_ in
  "spo2/date/" +:+ date_str +:+ "/" +:+ end_str +:+ ".json".

Definition get_spo2 (date : datetime) (end_ : option datetime) : M value :=
  _api_request (spo2_url_path date end_).

(** A call on the caller's [creds], with nothing sent yet. *)
Definition call {A} (m : M A) (creds : value) : Result A * World :=
  m (mkWorld creds []).

(** [get_access_token]: the authorization code is exchanged for the pair
    [(access_token, refresh_token)]; the four parameters are [str]. *)
Definition get_access_token (client : Client)
    (authorization_code client_id client_secret redirect_uri : string)
    : M (value * value) :=
  let post_data : gmap string value :=
    <["redirect_uri" := VStr redirect_uri]>
      (<["grant_type" := VStr "authorization_code"]>
         {[ "code" := VStr authorization_code ]}) in
  data ← _do_auth_post client (VStr client_id) (VStr client_secret) post_data;
  access_token ← getitem data "access_token";
  refresh_token ← getitem data "refresh_token";
  mret (access_token, refresh_token).

(** [main.py]. *)
Definition main (host : Host) : App unit :=
  if negb (google_auth_exists host) then
    print "Google authorized user file not found. Please run auth-main.py first.";;
    fail (SystemExit 1)
  else
    open_sheet host "Fitdata";;
    load_creds host;;
    let start := mkdatetime 2024 1 1 0 0 0 0 in
    yesterday ← yesterday_of host;
    print ("Retrieving SpO2 data from Fitbit for " +:+ isoformat yesterday +:+ "...");;
    data ← lift (get_spo2 start (Some yesterday));
    count ← py_len data;
    print ("Retrieved " +:+ pretty count +:+ " SpO2 record(s) from Fitbit.");;
    dump_creds host;;
    print "Adding data to Google Sheet...";;
    add_spo2_to_sheet host data;;
    print "Data added successfully.".

(** ** The requests the program builds and what a reply turns into

    The definitions of this part spell out, as plain case analyses, what
    the monadic text above computes; the equations further down prove each
    of them equal to the program, and the claims are stated on the program
    itself. *)

Definition resource_request (url : string) (token : string) : Request :=
  mkRequest GET url {[ "Authorization" := "Bearer " +:+ token ]} None.

Definition refresh_request (client_id client_secret refresh_token : value) : Request :=
  mkRequest POST "https://api.fitbit.com/oauth2/token"
    {[ "Authorization" := "Basic " +:+
         b64encode (format_value client_id +:+ ":" +:+ format_value client_secret) ]}
    (Some (<["grant_type" := VStr "refresh_token"]> {[ "refresh_token" := refresh_token ]})).

(** [raise_for_status] then [json()] on what came back. *)
Definition reply_outcome (reply : Reply) : Result value :=
  match reply with
  | Responded r =>
      if is_success r then
        match json r with
        | Some v => Return v
        | None => Raise JSONDecodeError
        end
      else Raise (HTTPStatusError r)
  | NoResponse error => Raise (TransportError error)
  end.

(** [creds["access_token"] = data["access_token"]] and the two lines
    after it, on the dict [c] the caller holds. *)
Definition store_tokens (data : value) (c : gmap string value)
    (lg : list Event) : Result value * World :=
  match data with
  | VDict t =>
      match t !! "access_token" with
      | None => (Raise (KeyError "access_token"), mkWorld (VDict c) lg)
      | Some a =>
          match t !! "refresh_token" with
          | None =>
              (Raise (KeyError "refresh_token"),
               mkWorld (VDict (<["access_token" := a]> c)) lg)
          | Some r =>
              (Return a,
               mkWorld (VDict (<["refresh_token" := r]> (<["access_token" := a]> c))) lg)
          end
      end
  | _ => (Raise TypeError, mkWorld (VDict c) lg)
  end.

(** What the handler of line 70 raises for a failed response:
    [CredentialsError(ex.response.json()) from ex]. *)
Definition credentials_error (r : Response) : Result value :=
  match json r with
  | Some body => Raise (CredentialsError [body] (Some (HTTPStatusError r)))
  | None => Raise JSONDecodeError
  end.

(** The handler of line 70 applied to an outcome: an [HTTPStatusError]
    becomes what [credentials_error] says, anything else passes. *)
Definition wrap_status_error (o : Result value) : Result value :=
  match o with
  | Raise (HTTPStatusError r) => credentials_error r
  | _ => o
  end.

(** The inner [try] of [_api_request], from what the refresh left. *)
Definition retry (client : Client) (url : string)
    (refreshed : Result value * World) : Result value * World :=
  match refreshed with
  | (Return (VStr token), w) =>
      if ascii_only token then
        let req := resource_request url token in
        let reply := network client (log w) req in
        (wrap_status_error (reply_outcome reply),
         mkWorld (creds w) (log w ++ [(req, reply)]))
      else (Raise UnicodeEncodeError, w)
  | (Return _, w) => (Raise TypeError, w)
  | (Raise e, w) => (wrap_status_error (Raise e), w)
  end.

(** The token endpoint honours the refresh of this call: the second
    request of the log, when there is one, was answered 2xx with the dict
    [tokens] as JSON body.  Nothing is asked of the network at any other
    point, so a server whose refresh tokens are single-use qualifies. *)
Definition refresh_granted (lg : list Event) (tokens : gmap string value) : Prop :=
  ∀ ev2 : Event,
    lg !! 1 = Some ev2 →
    ∃ r2 : Response,
      ev2.2 = Responded r2 ∧ is_success r2 = true ∧ json r2 = Some (VDict tokens).

(** ** Equations of the program *)

Lemma run_bind {A B} (m : M A) (k : A → M B) w :
  (m ≫= k) w =
    match m w with
    | (Return a, w') => k a w'
    | (Raise e, w') => (Raise e, w')
    end.
Proof. reflexivity. Qed.

(** *** Which headers httpx accepts *)

Lemma encodable_bearer (token : string) :
  encodable {[ "Authorization" := "Bearer " +:+ token ]} = ascii_only token.
Proof. unfold encodable. rewrite map_fold_singleton. reflexivity. Qed.

Lemma b64_char_ascii (n : N) : (N_of_ascii (b64_char n) <? 128)%N = true.
Proof.
  unfold b64_char.
  destruct (N.ltb_spec n 26); [|destruct (N.ltb_spec n 52);
    [|destruct (N.ltb_spec n 62); [|by destruct (n =? 62)%N]]].
  all: rewrite N_ascii_embedding by lia; apply N.ltb_lt; lia.
Qed.

Lemma ascii_only_b64encode_bounded (n : nat) (s : string) :
  String.length s ≤ n → ascii_only (b64encode s) = true.
Proof.
  revert s. induction n as [n IH] using (well_founded_induction lt_wf).
  intros [|a [|b [|c rest]]] Hlen; cbn [b64encode ascii_only]; cbv zeta;
    rewrite ?b64_char_ascii; try reflexivity.
  cbn [andb]. apply (IH (String.length rest)); cbn [String.length] in Hlen; lia.
Qed.

Lemma ascii_only_b64encode (s : string) : ascii_only (b64encode s) = true.
Proof. by apply (ascii_only_b64encode_bounded (String.length s)). Qed.

(** The Basic header of the token endpoint is base64, hence ASCII. *)
Lemma encodable_basic (s : string) :
  encodable {[ "Authorization" := "Basic " +:+ b64encode s ]} = true.
Proof.
  unfold encodable. rewrite map_fold_singleton.
  exact (ascii_only_b64encode s).
Qed.

(** In the years from 1000 to 9999, [%Y-%m-%d] is [YYYY-MM-DD]: the
    decimal digits of the year are four, and they are the ones [pad4]
    writes. *)
Lemma digit_char (n : nat) : digit n = pretty_N_char (N.of_nat n mod 10).
Proof.
  unfold digit. change 10%N with (N.of_nat 10). rewrite <- Nat2N.inj_mod.
  pose proof (Nat.mod_upper_bound n 10) as Hlt.
  destruct (n mod 10) as [|[|[|[|[|[|[|[|[|[|k]]]]]]]]]]; try reflexivity. lia.
Qed.

Lemma digit_div (n k : nat) :
  k ≠ 0 → digit (n / k) = pretty_N_char ((N.of_nat n / N.of_nat k) mod 10).
Proof. intros Hk. by rewrite digit_char, Nat2N.inj_div. Qed.

Lemma pretty_four_digits (y : nat) :
  (1000 ≤ Z.of_nat y ≤ 9999)%Z → pretty y = pad4 y.
Proof.
  intros Hy.
  assert (Hlow : (1000 ≤ N.of_nat y)%N) by lia.
  assert (Hhigh : (N.of_nat y < 10000)%N) by lia.
  unfold pad4, pad2.
  rewrite (digit_div y 1000), (digit_div y 100), (digit_div y 10), (digit_char y) by done.
  change (N.of_nat 1000) with (10 * (10 * 10))%N.
  change (N.of_nat 100) with (10 * 10)%N.
  change (N.of_nat 10) with 10%N.
  rewrite <- !N.Div0.div_div.
  unfold pretty, pretty_nat, pretty, pretty_N.
  generalize dependent (N.of_nat y). clear y Hy. intros x Hlow Hhigh.
  assert (H1 : (100 ≤ x / 10 < 1000)%N).
  { split; [apply N.div_le_lower_bound | apply N.Div0.div_lt_upper_bound]; lia. }
  assert (H2 : (10 ≤ x / 10 / 10 < 100)%N).
  { split; [apply N.div_le_lower_bound | apply N.Div0.div_lt_upper_bound]; lia. }
  assert (H3 : (1 ≤ x / 10 / 10 / 10 < 10)%N).
  { split; [apply N.div_le_lower_bound | apply N.Div0.div_lt_upper_bound]; lia. }
  destruct (decide (x = 0%N)) as [H0|_]; [lia|].
  rewrite 4 pretty_N_go_step by lia.
  rewrite (N.div_small (x / 10 / 10 / 10) 10), pretty_N_go_0 by lia.
  reflexivity.
Qed.

Lemma strftime_is_isoformat (d : datetime) :
  four_digit_year d → strftime_Y_m_d d = isoformat d.
Proof.
  intros Hy. unfold strftime_Y_m_d, isoformat. by rewrite pretty_four_digits.
Qed.

Lemma _do_resource_get_str client token url w :
  _do_resource_get client (VStr token) url w =
    if ascii_only token then
      let req := resource_request url token in
      let reply := network client (log w) req in
      (reply_outcome reply, mkWorld (creds w) (log w ++ [(req, reply)]))
    else (Raise UnicodeEncodeError, w).
Proof.
  unfold _do_resource_get, client_get, send, raise_for_status, response_json,
    resource_request, reply_outcome, str_add, mbind, M_bind, bind, ret, raise.
  cbn [headers]. rewrite encodable_bearer.
  destruct (ascii_only token); [|done].
  destruct (network _ _ _) as [r|e]; [|done].
  destruct (is_success r); [|done]. by destruct (json r).
Qed.

Lemma _do_resource_get_not_str client v url w :
  (∀ s, v ≠ VStr s) → _do_resource_get client v url w = (Raise TypeError, w).
Proof. intros Hv. destruct v; try done. by destruct (Hv s). Qed.

Lemma _do_auth_post_eq client client_id client_secret post_data w :
  _do_auth_post client client_id client_secret post_data w =
    let req :=
      mkRequest POST "https://api.fitbit.com/oauth2/token"
        {[ "Authorization" := "Basic " +:+
             b64encode (format_value client_id +:+ ":" +:+ format_value client_secret) ]}
        (Some post_data) in
    let reply := network client (log w) req in
    (reply_outcome reply, mkWorld (creds w) (log w ++ [(req, reply)])).
Proof.
  unfold _do_auth_post, client_post, send, raise_for_status, response_json,
    reply_outcome, mbind, M_bind, bind, ret, raise, encode, decode.
  cbv zeta. cbn [headers]. rewrite encodable_basic.
  destruct (network _ _ _) as [r|e]; [|done].
  destruct (is_success r); [|done]. by destruct (json r).
Qed.

Lemma _refresh_access_token_eq client (c : gmap string value) lg :
  _refresh_access_token client (mkWorld (VDict c) lg) =
    match c !! "refresh_token" with
    | None => (Raise (KeyError "refresh_token"), mkWorld (VDict c) lg)
    | Some refresh_token =>
        match c !! "client_id" with
        | None => (Raise (KeyError "client_id"), mkWorld (VDict c) lg)
        | Some client_id =>
            match c !! "client_secret" with
            | None => (Raise (KeyError "client_secret"), mkWorld (VDict c) lg)
            | Some client_secret =>
                let req := refresh_request client_id client_secret refresh_token in
                let reply := network client lg req in
                let lg' := lg ++ [(req, reply)] in
                match reply_outcome reply with
                | Return data => store_tokens data c lg'
                | Raise e => (Raise e, mkWorld (VDict c) lg')
                end
            end
        end
    end.
Proof.
  unfold _refresh_access_token, mbind, M_bind, bind.
  unfold creds_getitem at 1. simpl.
  destruct (c !! "refresh_token") as [rt|]; [|done]. simpl.
  unfold creds_getitem at 1. simpl.
  destruct (c !! "client_id") as [cid|]; [|done]. simpl.
  unfold creds_getitem at 1. simpl.
  destruct (c !! "client_secret") as [cs|]; [|done]. simpl.
  rewrite _do_auth_post_eq. simpl. fold (refresh_request cid cs rt).
  destruct (reply_outcome _) as [data|e]; [|done].
  unfold store_tokens, getitem, creds_setitem.
  destruct data; try done. simpl.
  destruct (d !! "access_token") as [a|]; [|done]. simpl.
  destruct (d !! "refresh_token") as [r|]; [|done]. simpl.
  done.
Qed.

Lemma retry_eq client url w :
  try_except
    (access_token ← _refresh_access_token client;
     _do_resource_get client access_token url)
    (λ ex',
       match ex' with
       | HTTPStatusError response' =>
           Some (body ← response_json response';
                 raise (CredentialsError [body] (Some ex')))
       | _ => None
       end) w
  = retry client url (_refresh_access_token client w).
Proof.
  unfold try_except, retry, wrap_status_error, mbind, M_bind, bind.
  destruct (_refresh_access_token client w) as [[a|e] w2].
  - destruct a; try done.
    rewrite _do_resource_get_str. destruct (ascii_only s); [|done]. cbv zeta.
    destruct (reply_outcome _) as [v|e]; [done|].
    destruct e; try done.
    unfold credentials_error, response_json, raise, ret.
    by destruct (json response).
  - destruct e; try done.
    unfold credentials_error, response_json, raise, ret.
    by destruct (json response).
Qed.

Lemma _api_request_dict url_path (c : gmap string value) :
  _api_request url_path (mkWorld (VDict c) []) =
    if (size c =? 0)%nat then (Raise (CredentialsError [] None), mkWorld (VDict c) [])
    else
      match default (VStr "") (c !! "access_token") with
      | VStr token =>
          if ascii_only token then
            let client := mkClient 10 in
            let url := "https://api.fitbit.com/1/user/-/" +:+ url_path in
            let req := resource_request url token in
            let reply := network client [] req in
            let w1 := mkWorld (VDict c) [(req, reply)] in
            match reply_outcome reply with
            | Raise (HTTPStatusError r) =>
                if (status_code r =? 401)%Z
                then retry client url (_refresh_access_token client w1)
                else (Raise (HTTPStatusError r), w1)
            | out => (out, w1)
            end
          else (Raise UnicodeEncodeError, mkWorld (VDict c) [])
      | _ => (Raise TypeError, mkWorld (VDict c) [])
      end.
Proof.
  unfold _api_request. rewrite run_bind. unfold creds_falsy at 1. simpl.
  destruct (size c =? 0)%nat; [done|]. simpl.
  rewrite run_bind. unfold creds_get at 1. simpl.
  destruct (default (VStr "") (c !! "access_token")) as [| | | |token| |];
    try done.
  unfold try_except at 1. rewrite _do_resource_get_str.
  destruct (ascii_only token); [|done]. cbv zeta. cbn [log creds app].
  destruct (reply_outcome _) as [v|e]; [done|].
  destruct e; try done.
  destruct (status_code response =? 401)%Z; [|done].
  by rewrite retry_eq.
Qed.

Lemma _api_request_not_dict url_path (creds : value) :
  (∀ d, creds ≠ VDict d) →
  _api_request url_path (mkWorld creds []) =
    (Raise (if truthy creds then AttributeError else CredentialsError [] None),
     mkWorld creds []).
Proof.
  intros Hd. unfold _api_request, mbind, M_bind, bind.
  unfold creds_falsy at 1. simpl.
  destruct (truthy creds) eqn:Ht; [|done]. simpl.
  unfold creds_get. simpl. destruct creds; try done. by destruct (Hd d).
Qed.

(** ** The first request *)

(** One step of a walk down the case analysis of a call: the refresh is
    replaced by its equation as soon as its world is known, otherwise the
    innermost scrutinee of some [match] of the goal is split. *)
Ltac case_step :=
  match goal with
  | |- context [_refresh_access_token ?cl (mkWorld (VDict ?c) ?lg)] =>
      rewrite (_refresh_access_token_eq cl c lg); cbv zeta;
      unfold store_tokens, reply_outcome
  | |- context [match ?x with _ => _ end] =>
      lazymatch x with
      | context [match _ with _ => _ end] => fail
      | _ => destruct x eqn:?
      end
  end.

(** Walks to the leaves, where the log and [creds] are explicit. *)
Ltac run_to_leaves :=
  unfold retry, wrap_status_error, credentials_error, reply_outcome;
  repeat case_step;
  cbn [fst snd log creds app lookup list_lookup].

Lemma is_success_401 (r : Response) : status_code r = 401%Z → is_success r = false.
Proof. unfold is_success. intros ->. reflexivity. Qed.

Lemma first_event (creds : value) (date : datetime) (end_ : option datetime)
    (ev1 : Event) :
  log (call (get_spo2 date end_) creds).2 !! 0 = Some ev1 →
  ∃ (c : gmap string value) (token : string),
    creds = VDict c ∧ (size c =? 0)%nat = false ∧
    default (VStr "") (c !! "access_token") = VStr token ∧
    ascii_only token = true ∧
    ev1 = (let req :=
             resource_request
               ("https://api.fitbit.com/1/user/-/" +:+ spo2_url_path date end_) token in
           (req, network (mkClient 10) [] req)).
Proof.
  unfold call, get_spo2.
  destruct creds as [| | | | | |c];
    [ by rewrite _api_request_not_dict .. | ].
  rewrite _api_request_dict. cbv zeta.
  run_to_leaves.
  all: intros; simplify_eq.
  all: eexists _, _; repeat split; try eassumption; congruence.
Qed.

Lemma first_401 (creds : value) (date : datetime) (end_ : option datetime)
    (ev1 : Event) :
  log (call (get_spo2 date end_) creds).2 !! 0 = Some ev1 →
  event_status ev1 = Some 401%Z →
  ∃ (c : gmap string value),
    creds = VDict c ∧ (size c =? 0)%nat = false ∧ event_method ev1 = GET ∧
    call (get_spo2 date end_) creds =
      retry (mkClient 10)
        ("https://api.fitbit.com/1/user/-/" +:+ spo2_url_path date end_)
        (_refresh_access_token (mkClient 10) (mkWorld (VDict c) [ev1])).
Proof.
  intros Hlog Hst.
  destruct (first_event _ _ _ _ Hlog) as (c & token & -> & Hsize & Htok & Hascii & Hev).
  exists c. cbv zeta in Hev. subst ev1.
  unfold event_status in Hst. cbn [snd] in Hst.
  destruct (network _ _ _) as [r|] eqn:Hnet; [|done].
  injection Hst as Hst.
  repeat split; [done|].
  unfold call, get_spo2. rewrite _api_request_dict, Hsize, Htok, Hascii. cbv zeta.
  rewrite Hnet. unfold reply_outcome.
  rewrite (is_success_401 r Hst), Hst. reflexivity.
Qed.

(** ** The claims *)

(** C4. With [creds] empty or null the fetch raises [CredentialsError]
    (raised bare, with no argument) and the log stays empty: no GET and no
    POST is issued.  This holds for [get_spo2] and for [_api_request] on
    any path. *)
Theorem no_credentials_no_request (creds : value) (date : datetime)
    (end_ : option datetime) (url_path : string) :
  creds = VNone ∨ creds = VDict ∅ →
  call (get_spo2 date end_) creds
    = (Raise (CredentialsError [] None), mkWorld creds []) ∧
  call (_api_request url_path) creds
    = (Raise (CredentialsError [] None), mkWorld creds []).
Proof. intros [-> | ->]; split; reflexivity. Qed.

(** C5. When the first GET is answered with a status that is neither 2xx
    nor 401, the fetch raises that very [HTTPStatusError]: it is not turned
    into a [CredentialsError], the log holds the one GET (no refresh, no
    retry), and [creds] is as before. *)
Theorem other_status_is_reraised (creds : value) (date : datetime)
    (end_ : option datetime) (ev1 : Event) (r : Response) :
  let out := call (get_spo2 date end_) creds in
  log out.2 !! 0 = Some ev1 →
  ev1.2 = Responded r →
  is_success r = false →
  status_code r ≠ 401%Z →
  out = (Raise (HTTPStatusError r), mkWorld creds [ev1]) ∧
  event_method ev1 = GET.
Proof.
  intros out Hlog Hr Hfail Hne. subst out.
  destruct (first_event _ _ _ _ Hlog) as (c & token & -> & Hsize & Htok & Hascii & Hev).
  cbv zeta in Hev. subst ev1. cbn [snd] in Hr. split; [|done].
  unfold call, get_spo2. rewrite _api_request_dict, Hsize, Htok, Hascii. cbv zeta.
  rewrite Hr. unfold reply_outcome. rewrite Hfail.
  by destruct (Z.eqb_spec (status_code r) 401).
Qed.

(** C10. A non-empty [creds] without the key ["refresh_token"]: when the
    first GET is answered 401 the fetch raises the [KeyError] of the lookup
    [creds["refresh_token"]], not a [CredentialsError]; nothing more is
    sent and [creds] is unchanged. *)
Theorem missing_refresh_token_is_key_error (c : gmap string value)
    (date : datetime) (end_ : option datetime) (ev1 : Event) :
  let out := call (get_spo2 date end_) (VDict c) in
  c ≠ ∅ →
  c !! "refresh_token" = None →
  log out.2 !! 0 = Some ev1 →
  event_status ev1 = Some 401%Z →
  out = (Raise (KeyError "refresh_token"), mkWorld (VDict c) [ev1]).
Proof.
  intros out _ Hrt Hlog Hst. subst out.
  destruct (first_401 _ _ _ _ Hlog Hst) as (c' & [= <-] & _ & _ & ->).
  by rewrite _refresh_access_token_eq, Hrt.
Qed.

(** C1. A non-empty [creds] with its client id and secret and a valid
    refresh token: the token endpoint answers the refresh of this call with
    the dict [tokens], whose access token is a string of ASCII characters.
    When the first GET is answered 401, the log is exactly: that GET, one
    POST to the token endpoint carrying the stored refresh token, one GET
    to the same URL bearing the new access token.  [creds["access_token"]]
    and [creds["refresh_token"]] then hold the values of the refresh
    response, and if the retry is answered 2xx with a JSON body, that body
    is what the call returns. *)
Theorem refresh_then_retry (c : gmap string value) (date : datetime)
    (end_ : option datetime) (ev1 : Event) (refresh_token : value)
    (tokens : gmap string value) (new_access : string) :
  let out := call (get_spo2 date end_) (VDict c) in
  c ≠ ∅ →
  is_Some (c !! "client_id") →
  is_Some (c !! "client_secret") →
  c !! "refresh_token" = Some refresh_token →
  log out.2 !! 0 = Some ev1 →
  event_status ev1 = Some 401%Z →
  refresh_granted (log out.2) tokens →
  tokens !! "access_token" = Some (VStr new_access) →
  ascii_only new_access = true →
  is_Some (tokens !! "refresh_token") →
  ∃ ev2 ev3 : Event,
    log out.2 = [ev1; ev2; ev3] ∧
    event_method ev1 = GET ∧
    event_method ev2 = POST ∧
    url ev2.1 = "https://api.fitbit.com/oauth2/token" ∧
    data ev2.1 =
      Some (<["grant_type" := VStr "refresh_token"]>
              {[ "refresh_token" := refresh_token ]}) ∧
    event_json ev2 = Some (VDict tokens) ∧
    ev3.1 = resource_request (url ev1.1) new_access ∧
    field (creds out.2) "access_token" = tokens !! "access_token" ∧
    field (creds out.2) "refresh_token" = tokens !! "refresh_token" ∧
    (∀ (r : Response) (body : value),
       ev3.2 = Responded r → is_success r = true → json r = Some body →
       out.1 = Return body).
Proof.
  intros out _ [cid Hcid] [cs Hcs] Hrt Hlog Hst Hgrant Hat Hascii [rt' Hrt'].
  subst out.
  destruct (first_event _ _ _ _ Hlog) as (? & token & [= <-] & _ & _ & _ & Hev).
  destruct (first_401 _ _ _ _ Hlog Hst) as (? & [= <-] & _ & Hget & Hcall).
  rewrite Hcall in Hgrant |- *. clear Hcall Hlog.
  revert Hgrant. unfold refresh_granted.
  rewrite _refresh_access_token_eq, Hrt, Hcid, Hcs. cbv zeta.
  unfold store_tokens. run_to_leaves.
  all: intros Hgrant; destruct (Hgrant _ eq_refl) as (r2 & Hr2 & Hok & Hjson).
  all: cbn [snd] in Hr2; simplify_eq.
  all: try congruence.
  all: eexists _, _; split; [reflexivity|].
  all: cbn [fst snd]; unfold event_json; cbn [snd].
  all: repeat split; try done.
  all: try (by subst ev1).
  all: try (unfold field; rewrite ?lookup_insert_eq; try done;
            rewrite lookup_insert_ne by done; by rewrite lookup_insert_eq).
  all: try (intros; simplify_eq; congruence).
Qed.

(** C7 (amended). A [CredentialsError] raised by the fetch is one of two:
    the bare one of the guard on [creds] (no argument, no cause, nothing
    sent), or the one built from the last response received, an error
    response whose JSON body is the single argument. *)
Theorem credentials_error_payload (creds : value) (date : datetime)
    (end_ : option datetime) (args : list value) (cause : option exn) :
  let out := call (get_spo2 date end_) creds in
  out.1 = Raise (CredentialsError args cause) →
  (truthy creds = false ∧ args = [] ∧ cause = None ∧ log out.2 = []) ∨
  (∃ (ev : Event) (r : Response) (body : value),
     last (log out.2) = Some ev ∧ ev.2 = Responded r ∧
     is_success r = false ∧ json r = Some body ∧
     args = [body] ∧ cause = Some (HTTPStatusError r)).
Proof.
  intros out. subst out. unfold call, get_spo2.
  destruct creds as [| | | | | |c].
  1-6: rewrite _api_request_not_dict by done;
       destruct (truthy _) eqn:Ht; intros [= <- <-]; by left.
  rewrite _api_request_dict. cbv zeta.
  run_to_leaves; intros; simplify_eq.
  - left. cbn [truthy]. by rewrite Heqb.
  - right. eexists _, _, _. by repeat split.
  - right. eexists _, _, _. by repeat split.
Qed.

Lemma not_a_token (k : string) :
  k ∉ ["access_token"; "refresh_token"] →
  "access_token" ≠ k ∧ "refresh_token" ≠ k.
Proof.
  intros Hk. split; intros <-; apply Hk; [left | right; left].
Qed.

(** C8. Whatever the fetch does, every field of [creds] other than
    ["access_token"] and ["refresh_token"] is as before, ["client_id"] and
    ["client_secret"] among them, and a [creds] that is no dict is
    untouched; when the first GET is answered 2xx, [creds] as a whole is
    unchanged. *)
Theorem creds_frame (creds0 : value) (date : datetime) (end_ : option datetime) :
  let out := call (get_spo2 date end_) creds0 in
  unchanged_outside ["access_token"; "refresh_token"] creds0 (creds out.2) ∧
  field (creds out.2) "client_id" = field creds0 "client_id" ∧
  field (creds out.2) "client_secret" = field creds0 "client_secret" ∧
  (∀ (ev1 : Event) (r : Response),
     log out.2 !! 0 = Some ev1 → ev1.2 = Responded r → is_success r = true →
     creds out.2 = creds0).
Proof.
  intros out. subst out. unfold call, get_spo2.
  destruct creds0 as [| | | | | |c].
  1-6: by rewrite _api_request_not_dict by done.
  rewrite _api_request_dict. cbv zeta.
  run_to_leaves.
  all: unfold unchanged_outside, field.
  all: repeat split; try done.
  all: try (eexists; split; [reflexivity|]; try done).
  all: try (intros; simplify_eq; cbn [snd] in *; congruence).
  all: try (intros k [? ?]%not_a_token).
  all: by rewrite ?lookup_insert_ne.
Qed.

Lemma size_non_empty (c : gmap string value) : c ≠ ∅ → (size c =? 0)%nat = false.
Proof.
  intros Hne. apply Nat.eqb_neq. intros Hz. by apply Hne, map_size_empty_iff.
Qed.

Lemma first_request_sent (url_path : string) (c : gmap string value)
    (token : string) :
  (size c =? 0)%nat = false →
  default (VStr "") (c !! "access_token") = VStr token →
  ascii_only token = true →
  let req := resource_request ("https://api.fitbit.com/1/user/-/" +:+ url_path) token in
  log (call (_api_request url_path) (VDict c)).2 !! 0
    = Some (req, network (mkClient 10) [] req).
Proof.
  intros Hsize Htok Hascii. unfold call.
  rewrite _api_request_dict, Hsize, Htok, Hascii. cbv zeta.
  run_to_leaves; done.
Qed.

Lemma get_requests_url (url_path : string) (creds0 : value) :
  Forall (λ ev, event_method ev = GET →
                url ev.1 = "https://api.fitbit.com/1/user/-/" +:+ url_path)
    (log (call (_api_request url_path) creds0).2).
Proof.
  unfold call. destruct creds0 as [| | | | | |c].
  1-6: rewrite _api_request_not_dict by done; constructor.
  rewrite _api_request_dict. cbv zeta.
  run_to_leaves; repeat constructor; done.
Qed.


(** C9 (amended). For a non-empty [creds] whose access token is a string
    of ASCII characters, or is absent and then counts as the empty string,
    and dates in the years 1000 to 9999, the first request of
    [get_spo2(creds, date, end)] is a GET to the base URL followed by
    [spo2/date/<date>/<end>.json], the dates written [YYYY-MM-DD], with the
    single header [Authorization: Bearer <token>] and no body. *)
Theorem first_request_is_authorized_get (c : gmap string value)
    (date end_ : datetime) (token : string) :
  let out := call (get_spo2 date (Some end_)) (VDict c) in
  c ≠ ∅ →
  default (VStr "") (c !! "access_token") = VStr token →
  ascii_only token = true →
  four_digit_year date →
  four_digit_year end_ →
  (c !! "access_token" = None → token = "") ∧
  ∃ reply : Reply,
    log out.2 !! 0 =
      Some (mkRequest GET
              ("https://api.fitbit.com/1/user/-/" +:+
               "spo2/date/" +:+ isoformat date +:+ "/" +:+
               isoformat end_ +:+ ".json")
              {[ "Authorization" := "Bearer " +:+ token ]} None,
            reply).
Proof.
  intros out Hne Htok Hascii Hdate Hend. split.
  - intros Hnone. rewrite Hnone in Htok. by injection Htok.
  - eexists. subst out.
    rewrite <- (strftime_is_isoformat date Hdate), <- (strftime_is_isoformat end_ Hend).
    apply (first_request_sent (spo2_url_path date (Some end_)) c token);
      [by apply size_non_empty | done | done].
Qed.


(** ** More on the fetch: what is sent, what comes back *)

(** X1. A fetch sends at most three requests, and in this order: a GET, a
    POST, a GET.  So there is at most one refresh and one retry, and every
    POST goes to the token endpoint. *)
Theorem at_most_three_requests (creds0 : value) (date : datetime)
    (end_ : option datetime) :
  let out := call (get_spo2 date end_) creds0 in
  (event_method <$> log out.2) `prefix_of` [GET; POST; GET] ∧
  Forall (λ ev, event_method ev = POST →
                url ev.1 = "https://api.fitbit.com/oauth2/token")
    (log out.2).
Proof.
  intros out. subst out. unfold call, get_spo2.
  destruct creds0 as [| | | | | |c].
  1-6: rewrite _api_request_not_dict by done; split; [by eexists | constructor].
  rewrite _api_request_dict. cbv zeta.
  run_to_leaves.
  all: split; [by eexists | repeat constructor; done].
Qed.

(** X2. When the first GET is answered 2xx, its JSON body is returned as
    it is, that GET is the only request and [creds] is untouched; a 2xx
    body that is not JSON raises the decoding error. *)
Theorem first_success_returns_body (creds0 : value) (date : datetime)
    (end_ : option datetime) (ev1 : Event) (r : Response) :
  let out := call (get_spo2 date end_) creds0 in
  log out.2 !! 0 = Some ev1 →
  ev1.2 = Responded r →
  is_success r = true →
  out = (match json r with
         | Some body => Return body
         | None => Raise JSONDecodeError
         end, mkWorld creds0 [ev1]).
Proof.
  intros out Hlog Hr Hok. subst out.
  destruct (first_event _ _ _ _ Hlog) as (c & token & -> & Hsize & Htok & Hascii & Hev).
  cbv zeta in Hev. subst ev1. cbn [snd] in Hr.
  unfold call, get_spo2. rewrite _api_request_dict, Hsize, Htok, Hascii. cbv zeta.
  rewrite Hr. unfold reply_outcome. rewrite Hok. by destruct (json r).
Qed.

(** X3. A value the fetch returns is the JSON body of the last request of
    the call, a GET answered 2xx. *)
Theorem returned_value_is_last_body (creds0 : value) (date : datetime)
    (end_ : option datetime) (body : value) :
  let out := call (get_spo2 date end_) creds0 in
  out.1 = Return body →
  ∃ (ev : Event) (r : Response),
    last (log out.2) = Some ev ∧ event_method ev = GET ∧
    ev.2 = Responded r ∧ is_success r = true ∧ json r = Some body.
Proof.
  intros out. subst out. unfold call, get_spo2.
  destruct creds0 as [| | | | | |c].
  1-6: by rewrite _api_request_not_dict by done.
  rewrite _api_request_dict. cbv zeta.
  run_to_leaves; intros; simplify_eq.
  all: eexists _, _; by repeat split.
Qed.

(** X4. An [HTTPStatusError] leaves the fetch only from the first GET,
    answered with a status that is neither 2xx nor 401: the errors of the
    refresh and of the retry never come out as they are. *)
Theorem raw_status_error_is_from_first_get (creds0 : value) (date : datetime)
    (end_ : option datetime) (r : Response) :
  let out := call (get_spo2 date end_) creds0 in
  out.1 = Raise (HTTPStatusError r) →
  ∃ ev1 : Event,
    log out.2 = [ev1] ∧ event_method ev1 = GET ∧ ev1.2 = Responded r ∧
    is_success r = false ∧ (status_code r =? 401)%Z = false.
Proof.
  intros out. subst out. unfold call, get_spo2.
  destruct creds0 as [| | | | | |c].
  1-6: rewrite _api_request_not_dict by done; by destruct (truthy _).
  rewrite _api_request_dict. cbv zeta.
  run_to_leaves; intros; simplify_eq.
  eexists. by repeat split.
Qed.

(** X5. A request that gets no response (connection refused, timeout) ends
    the fetch there: it is the last request of the call and its
    [TransportError] is what is raised, at the first GET, at the refresh or
    at the retry alike. *)
Theorem no_response_ends_the_call (creds0 : value) (date : datetime)
    (end_ : option datetime) (ev : Event) (error : string) :
  let out := call (get_spo2 date end_) creds0 in
  ev ∈ log out.2 →
  ev.2 = NoResponse error →
  out.1 = Raise (TransportError error) ∧ last (log out.2) = Some ev.
Proof.
  intros out. subst out. unfold call, get_spo2.
  destruct creds0 as [| | | | | |c].
  1-6: rewrite _api_request_not_dict by done; by intros ?%elem_of_nil.
  rewrite _api_request_dict. cbv zeta.
  run_to_leaves.
  all: rewrite ?elem_of_cons, elem_of_nil.
  all: intros Hin Hno; destruct_or?; simplify_eq; cbn [snd] in *; try congruence.
  all: simplify_eq; done.
Qed.

(** X6. An access token stored in [creds] that is not a string (a JSON
    null or number) makes the fetch raise [TypeError] while it builds the
    header: nothing is sent. *)
Theorem non_string_access_token (c : gmap string value) (date : datetime)
    (end_ : option datetime) (v : value) :
  c !! "access_token" = Some v →
  (∀ s, v ≠ VStr s) →
  call (get_spo2 date end_) (VDict c) = (Raise TypeError, mkWorld (VDict c) []).
Proof.
  intros Hv Hns. unfold call, get_spo2.
  rewrite _api_request_dict, size_non_empty, Hv.
  - destruct v; try done. by destruct (Hns s).
  - intros ->. by rewrite lookup_empty in Hv.
Qed.

(** X7. A second request is sent only after a first GET answered 401, and
    only when [creds] holds the three keys the refresh reads.  It is the
    POST to the token endpoint, with the Basic header made of the stored
    client id and secret and, as form data, the stored refresh token and
    [grant_type=refresh_token]. *)
Theorem second_request_is_the_refresh (creds0 : value) (date : datetime)
    (end_ : option datetime) (ev2 : Event) :
  let out := call (get_spo2 date end_) creds0 in
  log out.2 !! 1 = Some ev2 →
  ∃ (ev1 : Event) (c : gmap string value) (rt cid cs : value),
    creds0 = VDict c ∧
    log out.2 !! 0 = Some ev1 ∧ event_status ev1 = Some 401%Z ∧
    c !! "refresh_token" = Some rt ∧
    c !! "client_id" = Some cid ∧ c !! "client_secret" = Some cs ∧
    ev2.1 =
      mkRequest POST "https://api.fitbit.com/oauth2/token"
        {[ "Authorization" :=
             "Basic " +:+ b64encode (format_value cid +:+ ":" +:+ format_value cs) ]}
        (Some (<["grant_type" := VStr "refresh_token"]> {[ "refresh_token" := rt ]})).
Proof.
  intros out. subst out. unfold call, get_spo2.
  destruct creds0 as [| | | | | |c].
  1-6: by rewrite _api_request_not_dict by done.
  rewrite _api_request_dict. cbv zeta.
  run_to_leaves; intros; simplify_eq.
  all: eexists _, c, _, _, _; repeat split; try eassumption; try reflexivity.
  all: unfold event_status; cbn [snd]; f_equal; by apply Z.eqb_eq.
Qed.

(** X8. A refresh answered 2xx with a dict that has an access token and no
    refresh token: [creds["access_token"]] is already overwritten when the
    lookup of the refresh token raises its [KeyError]; the stored refresh
    token stays and no retry is sent. *)
Theorem refresh_without_new_refresh_token (c : gmap string value)
    (date : datetime) (end_ : option datetime) (ev1 ev2 : Event)
    (r2 : Response) (t : gmap string value) (a : value) :
  let out := call (get_spo2 date end_) (VDict c) in
  log out.2 !! 0 = Some ev1 →
  event_status ev1 = Some 401%Z →
  log out.2 !! 1 = Some ev2 →
  ev2.2 = Responded r2 →
  is_success r2 = true →
  json r2 = Some (VDict t) →
  t !! "access_token" = Some a →
  t !! "refresh_token" = None →
  out = (Raise (KeyError "refresh_token"),
         mkWorld (VDict (<["access_token" := a]> c)) [ev1; ev2]).
Proof.
  intros out Hlog Hst Hlog2 Hr2 Hok Hjson Ha Hr. subst out.
  destruct (first_401 _ _ _ _ Hlog Hst) as (? & [= <-] & _ & _ & Hcall).
  rewrite Hcall in Hlog2 |- *. clear Hcall Hlog.
  revert Hlog2. run_to_leaves; intros; simplify_eq.
  all: cbn [snd] in *; simplify_eq.
  all: first [done | congruence].
Qed.

(** X9. A refresh answered 2xx with a body that has no access token to
    read (no dict, or a dict without the key) raises [TypeError], or the
    [KeyError] of ["access_token"], and leaves [creds] as it was. *)
Theorem unusable_refresh_response (c : gmap string value)
    (date : datetime) (end_ : option datetime) (ev1 ev2 : Event)
    (r2 : Response) (answer : value) :
  let out := call (get_spo2 date end_) (VDict c) in
  log out.2 !! 0 = Some ev1 →
  event_status ev1 = Some 401%Z →
  log out.2 !! 1 = Some ev2 →
  ev2.2 = Responded r2 →
  is_success r2 = true →
  json r2 = Some answer →
  field answer "access_token" = None →
  out = (Raise (match answer with
                | VDict _ => KeyError "access_token"
                | _ => TypeError
                end),
         mkWorld (VDict c) [ev1; ev2]).
Proof.
  intros out Hlog Hst Hlog2 Hr2 Hok Hjson Ha. subst out.
  destruct (first_401 _ _ _ _ Hlog Hst) as (? & [= <-] & _ & _ & Hcall).
  rewrite Hcall in Hlog2 |- *. clear Hcall Hlog.
  revert Hlog2. run_to_leaves; intros; simplify_eq.
  all: cbn [snd field] in *; simplify_eq.
  all: first [done | congruence].
Qed.

(** X10. [creds] with a refresh token and without ["client_id"], or
    without ["client_secret"]: after a 401 the fetch raises the [KeyError]
    of the first of the two that is missing, before any POST. *)
Theorem missing_client_keys (c : gmap string value) (date : datetime)
    (end_ : option datetime) (ev1 : Event) :
  let out := call (get_spo2 date end_) (VDict c) in
  log out.2 !! 0 = Some ev1 →
  event_status ev1 = Some 401%Z →
  is_Some (c !! "refresh_token") →
  c !! "client_id" = None ∨ c !! "client_secret" = None →
  out = (Raise (KeyError (match c !! "client_id" with
                          | None => "client_id"
                          | Some _ => "client_secret"
                          end)),
         mkWorld (VDict c) [ev1]).
Proof.
  intros out Hlog Hst [rt Hrt] Hmiss. subst out.
  destruct (first_401 _ _ _ _ Hlog Hst) as (? & [= <-] & _ & _ & ->).
  rewrite _refresh_access_token_eq, Hrt.
  destruct (c !! "client_id") as [cid|]; [|done].
  destruct Hmiss as [|Hcs]; [done|]. by rewrite Hcs.
Qed.

(** X11. Whenever a third request is sent, whatever it is answered:
    [creds] holds the two tokens of the refresh response, and the request
    is the GET bearing that new access token. *)
Theorem retry_bears_the_stored_token (creds0 : value) (date : datetime)
    (end_ : option datetime) (ev3 : Event) :
  let out := call (get_spo2 date end_) creds0 in
  log out.2 !! 2 = Some ev3 →
  ∃ (ev2 : Event) (t : gmap string value) (token : string),
    log out.2 !! 1 = Some ev2 ∧ event_json ev2 = Some (VDict t) ∧
    t !! "access_token" = Some (VStr token) ∧ is_Some (t !! "refresh_token") ∧
    field (creds out.2) "access_token" = t !! "access_token" ∧
    field (creds out.2) "refresh_token" = t !! "refresh_token" ∧
    event_method ev3 = GET ∧
    headers ev3.1 = {[ "Authorization" := "Bearer " +:+ token ]}.
Proof.
  intros out. subst out. unfold call, get_spo2.
  destruct creds0 as [| | | | | |c].
  1-6: by rewrite _api_request_not_dict by done.
  rewrite _api_request_dict. cbv zeta.
  run_to_leaves; intros; simplify_eq.
  all: match goal with
       | Ha : ?d !! "access_token" = Some (VStr ?tok) |- _ => eexists _, d, tok
       end.
  all: split; [reflexivity|].
  all: unfold event_json, field; cbn [snd].
  all: repeat split; try eassumption; try done.
  all: try (rewrite lookup_insert_ne by done).
  all: try (rewrite lookup_insert_eq).
  all: done.
Qed.

(** X12. A refresh response whose access token is not a string: both
    tokens are stored in [creds], then the retry raises [TypeError] while
    it builds its header, and no third request is sent. *)
Theorem non_string_new_token (c : gmap string value)
    (date : datetime) (end_ : option datetime) (ev1 ev2 : Event)
    (r2 : Response) (t : gmap string value) (a rt' : value) :
  let out := call (get_spo2 date end_) (VDict c) in
  log out.2 !! 0 = Some ev1 →
  event_status ev1 = Some 401%Z →
  log out.2 !! 1 = Some ev2 →
  ev2.2 = Responded r2 →
  is_success r2 = true →
  json r2 = Some (VDict t) →
  t !! "access_token" = Some a →
  (∀ s, a ≠ VStr s) →
  t !! "refresh_token" = Some rt' →
  out = (Raise TypeError,
         mkWorld (VDict (<["refresh_token" := rt']> (<["access_token" := a]> c)))
           [ev1; ev2]).
Proof.
  intros out Hlog Hst Hlog2 Hr2 Hok Hjson Ha Hns Hr. subst out.
  destruct (first_401 _ _ _ _ Hlog Hst) as (? & [= <-] & _ & _ & Hcall).
  rewrite Hcall in Hlog2 |- *. clear Hcall Hlog.
  revert Hlog2. run_to_leaves; intros; simplify_eq.
  all: cbn [snd] in *; simplify_eq.
  all: first [done | congruence].
Qed.

(** X24. The first GET is answered 401 and the third request of the call,
    the retried GET, is answered with an error status and the JSON error
    body [body].  Then the fetch raises [CredentialsError(body)] (caused by
    that [HTTPStatusError]); the log is exactly GET, POST, GET, the POST
    having succeeded: no further refresh and no further retry. *)
Theorem failed_retry_raises_credentials_error (creds : value)
    (date : datetime) (end_ : option datetime) (ev1 ev3 : Event)
    (r3 : Response) (body : value) :
  let out := call (get_spo2 date end_) creds in
  log out.2 !! 0 = Some ev1 →
  event_status ev1 = Some 401%Z →
  log out.2 !! 2 = Some ev3 →
  ev3.2 = Responded r3 →
  is_success r3 = false →
  json r3 = Some body →
  out.1 = Raise (CredentialsError [body] (Some (HTTPStatusError r3))) ∧
  ∃ ev2 : Event,
    log out.2 = [ev1; ev2; ev3] ∧
    event_method ev1 = GET ∧ event_method ev2 = POST ∧ event_method ev3 = GET ∧
    ∃ r2, ev2.2 = Responded r2 ∧ is_success r2 = true.
Proof.
  intros out Hlog Hst Hlog3 Hr3 Hfail Hbody. subst out.
  destruct (first_401 _ _ _ _ Hlog Hst) as (c & -> & _ & Hget & Hcall).
  rewrite Hcall in Hlog3 |- *. clear Hcall Hlog.
  revert Hlog3. run_to_leaves; intros; simplify_eq.
  all: cbn [snd] in *; simplify_eq.
  all: try congruence.
  split; [done|]. eexists. repeat split; eauto.
Qed.

(** X25. The first GET is answered 401 and the token-refresh POST, the
    second request, is answered with an error status.  Then [creds] is
    exactly as before and nothing more is sent: the log is that GET and
    that POST.  When the body of the error response is JSON, what is raised
    is [CredentialsError(body)], caused by that [HTTPStatusError]. *)
Theorem failed_refresh_leaves_creds (creds : value) (date : datetime)
    (end_ : option datetime) (ev1 ev2 : Event) (r2 : Response) :
  let out := call (get_spo2 date end_) creds in
  log out.2 !! 0 = Some ev1 →
  event_status ev1 = Some 401%Z →
  log out.2 !! 1 = Some ev2 →
  ev2.2 = Responded r2 →
  is_success r2 = false →
  out.2 = mkWorld creds [ev1; ev2] ∧
  event_method ev1 = GET ∧ event_method ev2 = POST ∧
  url ev2.1 = "https://api.fitbit.com/oauth2/token" ∧
  (∀ body : value,
     json r2 = Some body →
     out.1 = Raise (CredentialsError [body] (Some (HTTPStatusError r2)))).
Proof.
  intros out Hlog Hst Hlog2 Hr2 Hfail. subst out.
  destruct (first_401 _ _ _ _ Hlog Hst) as (c & -> & _ & Hget & Hcall).
  rewrite Hcall in Hlog2 |- *. clear Hcall Hlog.
  revert Hlog2. run_to_leaves; intros; simplify_eq.
  all: cbn [snd] in *; simplify_eq.
  all: try congruence.
  all: repeat split; try done.
  all: intros; simplify_eq; done.
Qed.

(** ** The authorization code exchange *)

Lemma get_access_token_eq (client : Client)
    (authorization_code client_id client_secret redirect_uri : string) (w : World) :
  get_access_token client authorization_code client_id client_secret redirect_uri w =
    let req :=
      mkRequest POST "https://api.fitbit.com/oauth2/token"
        {[ "Authorization" :=
             "Basic " +:+ b64encode (client_id +:+ ":" +:+ client_secret) ]}
        (Some (<["redirect_uri" := VStr redirect_uri]>
                 (<["grant_type" := VStr "authorization_code"]>
                    {[ "code" := VStr authorization_code ]}))) in
    let reply := network client (log w) req in
    let w' := mkWorld (creds w) (log w ++ [(req, reply)]) in
    match reply_outcome reply with
    | Return answer =>
        match getitem answer "access_token" w' with
        | (Return a, _) =>
            match getitem answer "refresh_token" w' with
            | (Return r, _) => (Return (a, r), w')
            | (Raise e, _) => (Raise e, w')
            end
        | (Raise e, _) => (Raise e, w')
        end
    | Raise e => (Raise e, w')
    end.
Proof.
  unfold get_access_token. rewrite run_bind, _do_auth_post_eq. cbv zeta.
  cbn [format_value].
  destruct (reply_outcome _) as [answer|e]; [|done].
  rewrite run_bind. unfold getitem.
  destruct answer; try done.
  destruct (d !! "access_token"); [|done]. cbn.
  by destruct (d !! "refresh_token").
Qed.

Lemma get_access_token_world (client : Client)
    (authorization_code client_id client_secret redirect_uri : string) (w : World) :
  let out :=
    get_access_token client authorization_code client_id client_secret redirect_uri w in
  let req :=
    mkRequest POST "https://api.fitbit.com/oauth2/token"
      {[ "Authorization" :=
           "Basic " +:+ b64encode (client_id +:+ ":" +:+ client_secret) ]}
      (Some (<["redirect_uri" := VStr redirect_uri]>
               (<["grant_type" := VStr "authorization_code"]>
                  {[ "code" := VStr authorization_code ]}))) in
  out.2 = mkWorld (creds w) (log w ++ [(req, network client (log w) req)]).
Proof.
  intros out req. subst out req. rewrite get_access_token_eq. cbv zeta.
  destruct (reply_outcome _) as [answer|e]; [|done].
  unfold getitem. destruct answer; try done.
  destruct (d !! "access_token"); [|done]. cbn.
  by destruct (d !! "refresh_token").
Qed.

(** X13. [get_access_token] sends exactly one request, whatever the
    answer: a POST to the token endpoint with the Basic header made of the
    client id and secret and the form fields [code],
    [grant_type=authorization_code] and [redirect_uri].  It does not touch
    [creds]. *)
Theorem get_access_token_sends_one_post (client : Client)
    (authorization_code client_id client_secret redirect_uri : string) (w : World) :
  let out :=
    get_access_token client authorization_code client_id client_secret redirect_uri w in
  let req :=
    mkRequest POST "https://api.fitbit.com/oauth2/token"
      {[ "Authorization" :=
           "Basic " +:+ b64encode (client_id +:+ ":" +:+ client_secret) ]}
      (Some (<["redirect_uri" := VStr redirect_uri]>
               (<["grant_type" := VStr "authorization_code"]>
                  {[ "code" := VStr authorization_code ]}))) in
  log out.2 = log w ++ [(req, network client (log w) req)] ∧
  creds out.2 = creds w.
Proof.
  intros out req. subst out req.
  by rewrite get_access_token_world.
Qed.

(** X14. When the token endpoint answers 2xx with a JSON dict holding
    both tokens, [get_access_token] returns them as the pair (access
    token, refresh token). *)
Theorem get_access_token_returns_the_pair (client : Client)
    (authorization_code client_id client_secret redirect_uri : string) (w : World)
    (ev : Event) (r : Response) (t : gmap string value) (a rt : value) :
  let out :=
    get_access_token client authorization_code client_id client_secret redirect_uri w in
  last (log out.2) = Some ev →
  ev.2 = Responded r →
  is_success r = true →
  json r = Some (VDict t) →
  t !! "access_token" = Some a →
  t !! "refresh_token" = Some rt →
  out.1 = Return (a, rt).
Proof.
  intros out Hlast Hr Hok Hjson Ha Hrt. subst out.
  rewrite get_access_token_world in Hlast. cbv zeta in Hlast.
  cbn [log] in Hlast. rewrite last_snoc in Hlast. injection Hlast as <-.
  cbn [snd] in Hr.
  rewrite get_access_token_eq. cbv zeta. rewrite Hr. unfold reply_outcome.
  rewrite Hok, Hjson. unfold getitem. by rewrite Ha, Hrt.
Qed.

(** X15. The failures of [get_access_token] come out as they are, with no
    [CredentialsError] around them: an error status raises its
    [HTTPStatusError], and a 2xx JSON dict that lacks a token raises the
    [KeyError] of the first missing key, ["access_token"] before
    ["refresh_token"]. *)
Theorem get_access_token_failures (client : Client)
    (authorization_code client_id client_secret redirect_uri : string) (w : World)
    (ev : Event) (r : Response) :
  let out :=
    get_access_token client authorization_code client_id client_secret redirect_uri w in
  last (log out.2) = Some ev →
  ev.2 = Responded r →
  (is_success r = false → out.1 = Raise (HTTPStatusError r)) ∧
  (∀ t : gmap string value,
     is_success r = true → json r = Some (VDict t) →
     (t !! "access_token" = None → out.1 = Raise (KeyError "access_token")) ∧
     (is_Some (t !! "access_token") → t !! "refresh_token" = None →
      out.1 = Raise (KeyError "refresh_token"))).
Proof.
  intros out Hlast Hr. subst out.
  rewrite get_access_token_world in Hlast. cbv zeta in Hlast.
  cbn [log] in Hlast. rewrite last_snoc in Hlast. injection Hlast as <-.
  cbn [snd] in Hr.
  rewrite get_access_token_eq. cbv zeta. rewrite Hr. unfold reply_outcome.
  split.
  - by intros ->.
  - intros t -> ->. unfold getitem. split.
    + by intros ->.
    + intros [a ->] ->. done.
Qed.


(** ** The sheet *)

Lemma run_app_bind {A B} (m : App A) (k : A → App B) (p : Process) :
  (m ≫= k) p =
    match m p with
    | (Done a, p') => k a p'
    | (Failed f, p') => (Failed f, p')
    end.
Proof. reflexivity. Qed.

Lemma lift_getitem (obj : value) (key : string) (p : Process) :
  lift (getitem obj key) p =
    (match obj with
     | VDict d =>
         match d !! key with
         | Some v => Done v
         | None => Failed (Raised (KeyError key))
         end
     | _ => Failed (Raised TypeError)
     end, p).
Proof.
  destruct p as [w so du ap]. unfold lift, getitem.
  destruct obj; try done. by destruct (d !! key).
Qed.

Lemma spo2_row_eq (entry : value) (p : Process) :
  spo2_row entry p =
    (match entry with
     | VDict e =>
         match e !! "dateTime" with
         | None => Failed (Raised (KeyError "dateTime"))
         | Some date_time =>
             match e !! "value" with
             | None => Failed (Raised (KeyError "value"))
             | Some (VDict v) =>
                 match v !! "min" with
                 | None => Failed (Raised (KeyError "min"))
                 | Some minimum =>
                     match v !! "max" with
                     | None => Failed (Raised (KeyError "max"))
                     | Some maximum =>
                         match v !! "avg" with
                         | None => Failed (Raised (KeyError "avg"))
                         | Some average => Done (date_time, minimum, maximum, average)
                         end
                     end
                 end
             | Some _ => Failed (Raised TypeError)
             end
         end
     | _ => Failed (Raised TypeError)
     end, p).
Proof.
  unfold spo2_row.
  rewrite run_app_bind, lift_getitem.
  destruct entry as [| | | | | |e]; try done.
  destruct (e !! "dateTime") as [date_time|]; [|done].
  rewrite run_app_bind, lift_getitem.
  destruct (e !! "value") as [val|] eqn:Hval; [|done].
  rewrite run_app_bind, lift_getitem.
  destruct val as [| | | | | |v]; try done.
  destruct (v !! "min"); [|done].
  rewrite run_app_bind, lift_getitem, Hval.
  rewrite run_app_bind, lift_getitem.
  destruct (v !! "max"); [|done].
  rewrite run_app_bind, lift_getitem, Hval.
  rewrite run_app_bind, lift_getitem.
  by destruct (v !! "avg").
Qed.

Lemma spo2_row_has_row (entry : value) (row : Row) (p : Process) :
  has_row entry row → spo2_row entry p = (Done row, p).
Proof.
  intros (e & v & -> & Hd & Hv & Hmin & Hmax & Havg).
  rewrite spo2_row_eq, Hd, Hv, Hmin, Hmax, Havg.
  by destruct row as [[[? ?] ?] ?].
Qed.

Lemma spo2_row_done (entry : value) (row : Row) (p q : Process) :
  spo2_row entry p = (Done row, q) → has_row entry row.
Proof.
  rewrite spo2_row_eq. intros Hrow.
  repeat case_match; simplify_eq. by eexists _, _.
Qed.

Lemma mapM_cons (entry : value) (entries : list value) (p : Process) :
  mapM spo2_row (entry :: entries) p =
    match spo2_row entry p with
    | (Done row, p') =>
        match mapM spo2_row entries p' with
        | (Done rows, p'') => (Done (row :: rows), p'')
        | (Failed f, p'') => (Failed f, p'')
        end
    | (Failed f, p') => (Failed f, p')
    end.
Proof. reflexivity. Qed.

Lemma mapM_spo2_row_pure (entries : list value) (p : Process) :
  (mapM spo2_row entries p).2 = p.
Proof.
  induction entries as [|entry entries IH]; [done|].
  rewrite mapM_cons, spo2_row_eq.
  destruct (match entry with VDict _ => _ | _ => _ end); [|done].
  specialize IH. by destruct (mapM spo2_row entries p) as [[?|?] ?].
Qed.

Lemma mapM_has_rows (entries : list value) (rows : list Row) (p : Process) :
  Forall2 has_row entries rows → mapM spo2_row entries p = (Done rows, p).
Proof.
  induction 1 as [|entry row entries rows Hrow _ IH]; [done|].
  by rewrite mapM_cons, (spo2_row_has_row _ _ _ Hrow), IH.
Qed.

Lemma add_spo2_to_sheet_rows (host : Host) (entries : list value)
    (rows : list Row) (p : Process) :
  Forall2 has_row entries rows →
  add_spo2_to_sheet host (VList entries) p =
    (match gspread_append_rows host rows with
     | None => Done tt
     | Some error => Failed (HostError error)
     end,
     mkProcess (world p) (stdout p) (dumped p) (append_calls p ++ [rows])).
Proof.
  intros Hrows. unfold add_spo2_to_sheet.
  rewrite run_app_bind. cbn [iterate mret App_ret].
  rewrite run_app_bind, (mapM_has_rows _ _ _ Hrows).
  unfold append_rows. by destruct (gspread_append_rows host rows).
Qed.

(** X16. On a list of entries that all have a row, [add_spo2_to_sheet]
    calls [append_rows] once, with one row per entry, in the order of the
    entries, each row being [(dateTime, min, max, avg)]; an empty list
    still makes the call, with no rows.  Nothing else changes. *)
Theorem well_formed_data_is_appended (host : Host) (entries : list value)
    (rows : list Row) (p : Process) :
  let out := add_spo2_to_sheet host (VList entries) p in
  Forall2 has_row entries rows →
  append_calls out.2 = append_calls p ++ [rows] ∧
  length rows = length entries ∧
  out.1 = match gspread_append_rows host rows with
          | None => Done tt
          | Some error => Failed (HostError error)
          end ∧
  world out.2 = world p ∧ stdout out.2 = stdout p ∧ dumped out.2 = dumped p.
Proof.
  intros out Hrows. subst out.
  rewrite (add_spo2_to_sheet_rows host entries rows p Hrows).
  repeat split. symmetry. by eapply Forall2_length.
Qed.

(** The exceptions that building a row raises: [TypeError] on an entry,
    or on a ["value"], that is no dict, and the [KeyError] of a missing
    key. *)
Lemma spo2_row_failed (entry : value) (f : failure) (p q : Process) :
  spo2_row entry p = (Failed f, q) →
  q = p ∧
  (f = Raised TypeError ∨
   ∃ key : string,
     f = Raised (KeyError key) ∧ key ∈ ["dateTime"; "value"; "min"; "max"; "avg"]).
Proof.
  rewrite spo2_row_eq. intros Hrow.
  repeat case_match; simplify_eq; (split; [done|]).
  all: first [ by left | right; eexists; split; [done|] ].
  all: repeat first [ apply list_elem_of_here | apply list_elem_of_further ].
Qed.

Lemma mapM_bad_entry (good : list value) (rows : list Row) (bad : value)
    (rest : list value) (p : Process) :
  Forall2 has_row good rows →
  (∀ row, ¬ has_row bad row) →
  ∃ e : exn,
    mapM spo2_row (good ++ bad :: rest) p = (Failed (Raised e), p) ∧
    spo2_row bad p = (Failed (Raised e), p) ∧
    (e = TypeError ∨
     ∃ key : string,
       e = KeyError key ∧ key ∈ ["dateTime"; "value"; "min"; "max"; "avg"]).
Proof.
  intros Hgood Hbad.
  induction Hgood as [|entry row good rows Hrow _ IH].
  - cbn [app]. rewrite mapM_cons.
    destruct (spo2_row bad p) as [[row|f] q] eqn:Hrow.
    + by destruct (Hbad row (spo2_row_done _ _ _ _ Hrow)).
    + destruct (spo2_row_failed _ _ _ _ Hrow) as [-> [-> | (key & -> & Hkey)]].
      * exists TypeError. repeat split. by left.
      * exists (KeyError key). repeat split. right. by exists key.
  - cbn [app]. rewrite mapM_cons, (spo2_row_has_row _ _ _ Hrow).
    destruct IH as (e & -> & He). by exists e.
Qed.

(** X17. One entry without a row anywhere in the list, and
    [add_spo2_to_sheet] raises while it builds the rows, with the exception
    that the row of that entry raises: a [TypeError], or the [KeyError] of
    one of the keys ["dateTime"], ["value"], ["min"], ["max"], ["avg"].
    [append_rows] is not called, not even for the entries before the bad
    one, and nothing else changes. *)
Theorem malformed_entry_appends_nothing (host : Host)
    (good : list value) (rows : list Row) (bad : value) (rest : list value)
    (p : Process) :
  Forall2 has_row good rows →
  (∀ row, ¬ has_row bad row) →
  ∃ e : exn,
    add_spo2_to_sheet host (VList (good ++ bad :: rest)) p = (Failed (Raised e), p) ∧
    spo2_row bad p = (Failed (Raised e), p) ∧
    (e = TypeError ∨
     ∃ key : string,
       e = KeyError key ∧ key ∈ ["dateTime"; "value"; "min"; "max"; "avg"]).
Proof.
  intros Hgood Hbad. unfold add_spo2_to_sheet.
  rewrite run_app_bind. cbn [iterate mret App_ret]. rewrite run_app_bind.
  destruct (mapM_bad_entry good rows bad rest p Hgood Hbad) as (e & -> & He).
  by exists e.
Qed.

(** ** The command line *)

Lemma iterate_pure (data : value) (p : Process) : (iterate data p).2 = p.
Proof. by destruct data. Qed.

Lemma py_len_pure (data : value) (p : Process) : (py_len data p).2 = p.
Proof. by destruct data. Qed.

Lemma add_spo2_to_sheet_frame (host : Host) (data : value) (p : Process) :
  let q := (add_spo2_to_sheet host data p).2 in
  world q = world p ∧ stdout q = stdout p ∧ dumped q = dumped p ∧
  (append_calls q = append_calls p ∨
   ∃ rows, append_calls q = append_calls p ++ [rows]).
Proof.
  intros q. subst q. unfold add_spo2_to_sheet. rewrite run_app_bind.
  pose proof (iterate_pure data p) as Hit.
  destruct (iterate data p) as [[entries|f] p']; cbn [snd] in Hit; subst p'.
  - rewrite run_app_bind.
    pose proof (mapM_spo2_row_pure entries p) as Hpure.
    destruct (mapM spo2_row entries p) as [[rows|f] p'']; cbn [snd] in Hpure; subst p''.
    + unfold append_rows.
      destruct (gspread_append_rows host rows); cbn; repeat split; right; by eexists.
    + cbn. repeat split. by left.
  - cbn. repeat split. by left.
Qed.

Lemma main_eq (host : Host) :
  main host boot =
    if google_auth_exists host then
      match gspread_open host "Fitdata" with
      | Some error => (Failed (HostError error), boot)
      | None =>
          match creds_file_load host with
          | inr error => (Failed (HostError error), boot)
          | inl loaded =>
              match minus_one_day (datetime_now host) with
              | None =>
                  (Failed (HostError "OverflowError"),
                   mkProcess (mkWorld loaded []) [] [] [])
              | Some yesterday =>
                  let line1 :=
                    "Retrieving SpO2 data from Fitbit for " +:+
                    isoformat yesterday +:+ "..." in
                  match call (get_spo2 (mkdatetime 2024 1 1 0 0 0 0) (Some yesterday))
                          loaded with
                  | (Raise e, w) => (Failed (Raised e), mkProcess w [line1] [] [])
                  | (Return data, w) =>
                      match py_len data (mkProcess w [line1] [] []) with
                      | (Failed f, _) => (Failed f, mkProcess w [line1] [] [])
                      | (Done count, _) =>
                          let line2 :=
                            "Retrieved " +:+ pretty count +:+
                            " SpO2 record(s) from Fitbit." in
                          match creds_file_dump host (creds w) with
                          | Some error =>
                              (Failed (HostError error),
                               mkProcess w [line1; line2] [] [])
                          | None =>
                              match
                                add_spo2_to_sheet host data
                                  (mkProcess w
                                     [line1; line2; "Adding data to Google Sheet..."]
                                     [creds w] [])
                              with
                              | (Failed f, q) => (Failed f, q)
                              | (Done _, q) =>
                                  (Done tt,
                                   mkProcess (world q)
                                     (stdout q ++ ["Data added successfully."])
                                     (dumped q) (append_calls q))
                              end
                          end
                      end
                  end
              end
          end
      end
    else
      (Failed (SystemExit 1),
       mkProcess (mkWorld VNone [])
         ["Google authorized user file not found. Please run auth-main.py first."]
         [] []).
Proof.
  unfold main.
  destruct (google_auth_exists host); [|reflexivity]. cbn [negb].
  rewrite run_app_bind. unfold open_sheet at 1.
  destruct (gspread_open host "Fitdata"); [reflexivity|]. cbn [mret App_ret].
  rewrite run_app_bind. unfold load_creds at 1.
  destruct (creds_file_load host) as [loaded|error]; [|reflexivity].
  cbn [boot world stdout dumped append_calls log].
  rewrite run_app_bind. unfold yesterday_of at 1.
  destruct (minus_one_day (datetime_now host)) as [yesterday|]; [|reflexivity].
  cbn [mret App_ret]. cbv zeta.
  rewrite run_app_bind. unfold print at 1.
  cbn [world stdout dumped append_calls app].
  rewrite run_app_bind. unfold lift at 1. cbn [world stdout dumped append_calls].
  unfold call.
  destruct (get_spo2 _ _ _) as [[data|e] w]; [|reflexivity].
  rewrite run_app_bind.
  match goal with
  | |- context [py_len data ?p] =>
      pose proof (py_len_pure data p) as Hlen;
      destruct (py_len data p) as [[count|f] q]; cbn [snd] in Hlen; subst q
  end; [|reflexivity].
  rewrite run_app_bind. unfold print at 1.
  cbn [world stdout dumped append_calls app].
  rewrite run_app_bind. unfold dump_creds at 1.
  cbn [world stdout dumped append_calls app].
  destruct (creds_file_dump host (creds w)); [reflexivity|].
  rewrite run_app_bind. unfold print at 1.
  cbn [world stdout dumped append_calls app].
  rewrite run_app_bind.
  destruct (add_spo2_to_sheet host data _) as [[[]|f] q]; reflexivity.
Qed.

(** X18. Without the Google authorized user file, [main] prints one line
    and exits with code 1: the credentials file is not read, nothing is
    sent to Fitbit, nothing is written. *)
Theorem main_without_google_auth (host : Host) :
  google_auth_exists host = false →
  main host boot =
    (Failed (SystemExit 1),
     mkProcess (mkWorld VNone [])
       ["Google authorized user file not found. Please run auth-main.py first."]
       [] []).
Proof. intros Hno. by rewrite main_eq, Hno. Qed.

(** X19. What [main] writes to the credentials file is written once, after
    the fetch has returned, and it is the [creds] object as the fetch left
    it, refreshed tokens included. *)
Theorem main_dumps_creds_after_fetch (host : Host) (v : value) :
  let out := main host boot in
  v ∈ dumped out.2 →
  ∃ (loaded : value) (yesterday : datetime) (data : value),
    creds_file_load host = inl loaded ∧
    minus_one_day (datetime_now host) = Some yesterday ∧
    call (get_spo2 (mkdatetime 2024 1 1 0 0 0 0) (Some yesterday)) loaded
      = (Return data, world out.2) ∧
    dumped out.2 = [creds (world out.2)].
Proof.
  intros out. subst out. rewrite main_eq.
  destruct (google_auth_exists host); [|by intros ?%elem_of_nil].
  destruct (gspread_open host "Fitdata"); [by intros ?%elem_of_nil|].
  destruct (creds_file_load host) as [loaded|]; [|by intros ?%elem_of_nil].
  destruct (minus_one_day _) as [yesterday|]; [|by intros ?%elem_of_nil].
  cbv zeta.
  destruct (call _ _) as [[data|e] w] eqn:Hcall; [|by intros ?%elem_of_nil].
  destruct (py_len data _) as [[count|f] ?]; [|by intros ?%elem_of_nil].
  destruct (creds_file_dump host _); [by intros ?%elem_of_nil|].
  match goal with
  | |- context [add_spo2_to_sheet host data ?p] =>
      destruct (add_spo2_to_sheet_frame host data p) as (Hw & _ & Hd & _);
      destruct (add_spo2_to_sheet host data p) as [[[]|f] q]
  end.
  all: cbn [snd world dumped] in *; intros _.
  all: exists loaded, yesterday, data; rewrite Hw, Hd; by repeat split.
Qed.

(** X20. When the fetch raises, [main] ends with that exception before it
    writes anything: the credentials file and the sheet are untouched, also
    when the fetch had already refreshed the tokens in [creds]. *)
Theorem main_failed_fetch_writes_nothing (host : Host) (loaded : value)
    (yesterday : datetime) (e : exn) (w : World) :
  google_auth_exists host = true →
  gspread_open host "Fitdata" = None →
  creds_file_load host = inl loaded →
  minus_one_day (datetime_now host) = Some yesterday →
  call (get_spo2 (mkdatetime 2024 1 1 0 0 0 0) (Some yesterday)) loaded = (Raise e, w) →
  main host boot =
    (Failed (Raised e),
     mkProcess w
       ["Retrieving SpO2 data from Fitbit for " +:+ isoformat yesterday +:+ "..."]
       [] []).
Proof.
  intros Hauth Hopen Hload Hday Hcall.
  rewrite main_eq, Hauth, Hopen, Hload, Hday. cbv zeta. by rewrite Hcall.
Qed.

(** X21. [main] calls [append_rows] at most once, and only after the
    credentials file has been written. *)
Theorem main_appends_after_dump (host : Host) (rows : list Row) :
  let out := main host boot in
  rows ∈ append_calls out.2 →
  append_calls out.2 = [rows] ∧ dumped out.2 = [creds (world out.2)].
Proof.
  intros out. subst out. rewrite main_eq.
  destruct (google_auth_exists host); [|by intros ?%elem_of_nil].
  destruct (gspread_open host "Fitdata"); [by intros ?%elem_of_nil|].
  destruct (creds_file_load host) as [loaded|]; [|by intros ?%elem_of_nil].
  destruct (minus_one_day _) as [yesterday|]; [|by intros ?%elem_of_nil].
  cbv zeta.
  destruct (call _ _) as [[data|e] w] eqn:Hcall; [|by intros ?%elem_of_nil].
  destruct (py_len data _) as [[count|f] ?]; [|by intros ?%elem_of_nil].
  destruct (creds_file_dump host _); [by intros ?%elem_of_nil|].
  match goal with
  | |- context [add_spo2_to_sheet host data ?p] =>
      destruct (add_spo2_to_sheet_frame host data p) as (Hw & _ & Hd & Ha);
      destruct (add_spo2_to_sheet host data p) as [[[]|f] q]
  end.
  all: cbn [snd world dumped append_calls app] in *; rewrite Hw, Hd.
  all: destruct Ha as [-> | [rows' ->]]; [by intros ?%elem_of_nil|].
  all: by intros ->%list_elem_of_singleton.
Qed.

(** X22. A run where everything goes well: the host has the files and
    takes the writes, the fetch returns a list of entries that all have a
    row.  Then [main] prints its four lines, with the number of entries in
    the second, writes [creds] as the fetch left it, and appends the rows
    in one call. *)
Theorem main_success (host : Host) (loaded : value) (yesterday : datetime)
    (entries : list value) (rows : list Row) (w : World) :
  google_auth_exists host = true →
  gspread_open host "Fitdata" = None →
  creds_file_load host = inl loaded →
  minus_one_day (datetime_now host) = Some yesterday →
  call (get_spo2 (mkdatetime 2024 1 1 0 0 0 0) (Some yesterday)) loaded
    = (Return (VList entries), w) →
  Forall2 has_row entries rows →
  creds_file_dump host (creds w) = None →
  gspread_append_rows host rows = None →
  main host boot =
    (Done tt,
     mkProcess w
       ["Retrieving SpO2 data from Fitbit for " +:+ isoformat yesterday +:+ "...";
        "Retrieved " +:+ pretty (length entries) +:+ " SpO2 record(s) from Fitbit.";
        "Adding data to Google Sheet...";
        "Data added successfully."]
       [creds w] [rows]).
Proof.
  intros Hauth Hopen Hload Hday Hcall Hrows Hdump Happend.
  rewrite main_eq, Hauth, Hopen, Hload, Hday. cbv zeta. rewrite Hcall.
  cbn [py_len mret App_ret]. rewrite Hdump.
  rewrite (add_spo2_to_sheet_rows host entries rows _ Hrows), Happend.
  reflexivity.
Qed.

(** X23. Every GET of [main] asks for the range from 2024-01-01 to the
    day before [datetime.now()]. *)
Theorem main_queries_up_to_yesterday (host : Host) :
  let out := main host boot in
  Forall (λ ev : Event,
            event_method ev = GET →
            ∃ yesterday : datetime,
              minus_one_day (datetime_now host) = Some yesterday ∧
              url ev.1 = "https://api.fitbit.com/1/user/-/spo2/date/2024-01-01/" +:+
                         strftime_Y_m_d yesterday +:+ ".json")
    (log (world out.2)).
Proof.
  intros out. subst out. rewrite main_eq.
  destruct (google_auth_exists host); [|constructor].
  destruct (gspread_open host "Fitdata"); [constructor|].
  destruct (creds_file_load host) as [loaded|]; [|constructor].
  destruct (minus_one_day _) as [yesterday|]; [|constructor].
  cbv zeta.
  pose proof (get_requests_url
                (spo2_url_path (mkdatetime 2024 1 1 0 0 0 0) (Some yesterday)) loaded)
    as Hurl.
  assert (Hgoal : Forall (λ ev : Event,
            event_method ev = GET →
            ∃ y : datetime, Some yesterday = Some y ∧
              url ev.1 = "https://api.fitbit.com/1/user/-/spo2/date/2024-01-01/" +:+
                         strftime_Y_m_d y +:+ ".json")
            (log (call (get_spo2 (mkdatetime 2024 1 1 0 0 0 0) (Some yesterday)) loaded).2)).
  { eapply Forall_impl; [exact Hurl|]. intros ev Hev Hget.
    exists yesterday. split; [done|]. by rewrite (Hev Hget). }
  clear Hurl.
  destruct (call _ _) as [[data|e] w]; cbn [snd] in Hgoal; [|done].
  destruct (py_len data _) as [[count|f] ?]; [|done].
  destruct (creds_file_dump host _); [done|].
  match goal with
  | |- context [add_spo2_to_sheet host data ?p] =>
      destruct (add_spo2_to_sheet_frame host data p) as (Hw & _);
      destruct (add_spo2_to_sheet host data p) as [[[]|f] q]
  end.
  all: cbn [snd world] in *; by rewrite Hw.
Qed.

End Fitbit.

(** ** The program on the fixtures *)

Example strftime_2024_01_01 : strftime_Y_m_d day_2024_01_01 = "2024-01-01".
Proof. reflexivity. Qed.

Lemma isoformat_length (d : datetime) : String.length (isoformat d) = 10.
Proof. reflexivity. Qed.

(** Where [%Y-%m-%d] and [YYYY-MM-DD] part: the years below 1000. *)
Example strftime_before_1000 :
  strftime_Y_m_d day_0999_12_31 = "999-12-31" ∧
  isoformat day_0999_12_31 = "0999-12-31" ∧
  strftime_Y_m_d day_1000_01_01 = "1000-01-01" ∧
  isoformat day_1000_01_01 = "1000-01-01".
Proof. repeat split. Qed.

(** A header that is not ASCII is refused before anything is sent: at the
    first GET for a stored token, and at the retry for a refreshed one,
    which is stored all the same. *)
Example non_ascii_token_sends_nothing :
  call (get_spo2 no_str (scripted [records_found]) day_2024_01_01 None)
    (VDict {[ "access_token" := VStr umlaut_token ]})
  = (Raise UnicodeEncodeError,
     mkWorld (VDict {[ "access_token" := VStr umlaut_token ]}) []) ∧
  (let out :=
     call (get_spo2 no_str (scripted [unauthorized; granted_an_umlaut; records_found])
             day_2024_01_01 None) (VDict stored_creds) in
   out.1 = Raise UnicodeEncodeError ∧
   (λ ev : Event, (event_method ev, event_status ev)) <$> log out.2
     = [(GET, Some 401%Z); (POST, Some 200%Z)] ∧
   field (creds out.2) "access_token" = Some (VStr umlaut_token)).
Proof. vm_compute. repeat split. Qed.

Example b64encode_basic_credentials : b64encode "A:B" = "QTpC".
Proof. reflexivity. Qed.

Example b64encode_padding :
  b64encode "client:secret" = "Y2xpZW50OnNlY3JldA==" ∧ b64encode "ab" = "YWI=".
Proof. split; reflexivity. Qed.

(** The scenario of the specification: an expired token, a refresh that
    yields [new] and [R2], a retry that yields one record. *)
Example expired_token_scenario :
  let out :=
    call (get_spo2 no_str expired_then_fresh day_2024_01_01 (Some day_2024_01_02))
      (VDict stored_creds) in
  out.1 = Return spo2_records ∧
  field (creds out.2) "access_token" = Some (VStr "new") ∧
  field (creds out.2) "refresh_token" = Some (VStr "R2") ∧
  (λ ev : Event, (method ev.1, url ev.1, headers ev.1 !! "Authorization")) <$> log out.2 =
    [(GET, "https://api.fitbit.com/1/user/-/spo2/date/2024-01-01/2024-01-02.json",
      Some "Bearer expired");
     (POST, "https://api.fitbit.com/oauth2/token", Some "Basic QTpC");
     (GET, "https://api.fitbit.com/1/user/-/spo2/date/2024-01-01/2024-01-02.json",
      Some "Bearer new")].
Proof. vm_compute. repeat split. Qed.

(** ** Witnesses and counterexamples *)

Lemma stored_creds_non_empty : stored_creds ≠ ∅.
Proof. apply insert_non_empty. Qed.

Lemma creds_without_refresh_non_empty : creds_without_refresh ≠ ∅.
Proof. apply insert_non_empty. Qed.

Lemma no_credentials_no_request_witness :
  call (get_spo2 no_str (scripted []) day_2024_01_01 None) (VDict ∅)
    = (Raise (CredentialsError [] None), mkWorld (VDict ∅) []) ∧
  call (_api_request no_str (scripted []) "spo2/date/today.json") (VDict ∅)
    = (Raise (CredentialsError [] None), mkWorld (VDict ∅) []).
Proof.
  apply (no_credentials_no_request no_str (scripted []) (VDict ∅)).
  right. reflexivity.
Defined.

Lemma other_status_is_reraised_witness :
  let ev1 : Event :=
    (resource_request
       "https://api.fitbit.com/1/user/-/spo2/date/2024-01-01/2024-01-02.json" "expired",
     server_error) in
  call (get_spo2 no_str (scripted [server_error]) day_2024_01_01 (Some day_2024_01_02))
    (VDict stored_creds)
    = (Raise (HTTPStatusError (mkResponse 500 (Some error_body))),
       mkWorld (VDict stored_creds) [ev1]) ∧
  event_method ev1 = GET.
Proof.
  apply (other_status_is_reraised no_str (scripted [server_error])
           (VDict stored_creds) day_2024_01_01 (Some day_2024_01_02)).
  - vm_compute. reflexivity.
  - reflexivity.
  - reflexivity.
  - vm_compute. discriminate.
Defined.

Lemma missing_refresh_token_is_key_error_witness :
  call (get_spo2 no_str (scripted [unauthorized]) day_2024_01_01 None)
    (VDict creds_without_refresh)
    = (Raise (KeyError "refresh_token"),
       mkWorld (VDict creds_without_refresh)
         [(resource_request
             "https://api.fitbit.com/1/user/-/spo2/date/2024-01-01/2024-01-01.json"
             "expired",
           unauthorized)]).
Proof.
  apply (missing_refresh_token_is_key_error no_str (scripted [unauthorized])
           creds_without_refresh day_2024_01_01 None).
  - apply creds_without_refresh_non_empty.
  - reflexivity.
  - vm_compute. reflexivity.
  - reflexivity.
Defined.

Lemma refresh_then_retry_witness :
  let out :=
    call (get_spo2 no_str (scripted [unauthorized; granted; records_found])
            day_2024_01_01 (Some day_2024_01_02))
      (VDict stored_creds) in
  let ev1 : Event :=
    (resource_request
       "https://api.fitbit.com/1/user/-/spo2/date/2024-01-01/2024-01-02.json" "expired",
     unauthorized) in
  ∃ ev2 ev3 : Event,
    log out.2 = [ev1; ev2; ev3] ∧
    event_method ev1 = GET ∧
    event_method ev2 = POST ∧
    url ev2.1 = "https://api.fitbit.com/oauth2/token" ∧
    data ev2.1 =
      Some (<["grant_type" := VStr "refresh_token"]>
              {[ "refresh_token" := VStr "R1" ]}) ∧
    event_json ev2 = Some (VDict fresh_tokens) ∧
    ev3.1 = resource_request (url ev1.1) "new" ∧
    field (creds out.2) "access_token" = fresh_tokens !! "access_token" ∧
    field (creds out.2) "refresh_token" = fresh_tokens !! "refresh_token" ∧
    (∀ (r : Response) (body : value),
       ev3.2 = Responded r → is_success r = true → json r = Some body →
       out.1 = Return body).
Proof.
  apply (refresh_then_retry no_str (scripted [unauthorized; granted; records_found])
           stored_creds day_2024_01_01 (Some day_2024_01_02) _ (VStr "R1")
           fresh_tokens "new").
  - apply stored_creds_non_empty.
  - by eexists.
  - by eexists.
  - reflexivity.
  - vm_compute. reflexivity.
  - reflexivity.
  - intros ev2 Hev2. vm_compute in Hev2. injection Hev2 as <-.
    eexists. repeat split.
  - reflexivity.
  - reflexivity.
  - by eexists.
Defined.

(** C2. The retried GET of a refreshed call is answered 502 with a body
    that is not JSON (the page of a gateway).  The handler of line 70 calls
    [ex.response.json()] to build the [CredentialsError]; that call raises,
    and the decoding error is what leaves the fetch: no [CredentialsError]
    is raised. *)
Theorem failed_retry_not_json :
  let out :=
    call (get_spo2 no_str (scripted [unauthorized; granted; bad_gateway])
            day_2024_01_01 (Some day_2024_01_02))
      (VDict stored_creds) in
  (λ ev : Event, (event_method ev, event_status ev)) <$> log out.2
    = [(GET, Some 401%Z); (POST, Some 200%Z); (GET, Some 502%Z)] ∧
  out.1 = Raise JSONDecodeError.
Proof. vm_compute. repeat split. Qed.

(** C3. The token-refresh POST is answered 502 with a body that is not
    JSON.  The same handler calls [ex.response.json()], which raises: the
    fetch ends with the decoding error and not with [CredentialsError].
    [creds] is as before. *)
Theorem failed_refresh_not_json :
  let out :=
    call (get_spo2 no_str (scripted [unauthorized; bad_gateway])
            day_2024_01_01 (Some day_2024_01_02))
      (VDict stored_creds) in
  (λ ev : Event, (event_method ev, event_status ev)) <$> log out.2
    = [(GET, Some 401%Z); (POST, Some 502%Z)] ∧
  out.1 = Raise JSONDecodeError ∧
  creds out.2 = VDict stored_creds.
Proof. vm_compute. repeat split. Qed.

Lemma credentials_error_payload_witness :
  let out :=
    call (get_spo2 no_str (scripted [unauthorized; bad_request])
            day_2024_01_01 (Some day_2024_01_02))
      (VDict stored_creds) in
  (truthy (VDict stored_creds) = false ∧ [error_body] = [] ∧
   Some (HTTPStatusError (mkResponse 400 (Some error_body))) = None ∧
   log out.2 = []) ∨
  (∃ (ev : Event) (r : Response) (body : value),
     last (log out.2) = Some ev ∧ ev.2 = Responded r ∧
     is_success r = false ∧ json r = Some body ∧
     [error_body] = [body] ∧
     Some (HTTPStatusError (mkResponse 400 (Some error_body)))
       = Some (HTTPStatusError r)).
Proof.
  apply (credentials_error_payload no_str (scripted [unauthorized; bad_request])
           (VDict stored_creds) day_2024_01_01 (Some day_2024_01_02)).
  vm_compute. reflexivity.
Defined.

(** C7, as stated, fails on the guard: the [CredentialsError] raised for
    empty or null [creds] has no argument at all and nothing was sent, so
    there is no payload of a server in it. *)
Lemma bare_credentials_error_counterexample :
  call (get_spo2 no_str (scripted []) day_2024_01_01 None) (VDict ∅)
    = (Raise (CredentialsError [] None), mkWorld (VDict ∅) []) ∧
  call (get_spo2 no_str (scripted []) day_2024_01_01 None) VNone
    = (Raise (CredentialsError [] None), mkWorld VNone []).
Proof. split; reflexivity. Qed.

Lemma four_digit_year_2024_01_01 : four_digit_year day_2024_01_01.
Proof. unfold four_digit_year. cbn. lia. Qed.

Lemma four_digit_year_2024_01_02 : four_digit_year day_2024_01_02.
Proof. unfold four_digit_year. cbn. lia. Qed.



Lemma first_request_is_authorized_get_witness :
  (stored_creds !! "access_token" = None → "expired" = "") ∧
  ∃ reply : Reply,
    log (call (get_spo2 no_str (scripted [records_found]) day_2024_01_01
                 (Some day_2024_01_02)) (VDict stored_creds)).2 !! 0 =
      Some (mkRequest GET
              "https://api.fitbit.com/1/user/-/spo2/date/2024-01-01/2024-01-02.json"
              {[ "Authorization" := "Bearer expired" ]} None,
            reply).
Proof.
  apply (first_request_is_authorized_get no_str (scripted [records_found])
           stored_creds day_2024_01_01 day_2024_01_02 "expired").
  - apply stored_creds_non_empty.
  - reflexivity.
  - reflexivity.
  - apply four_digit_year_2024_01_01.
  - apply four_digit_year_2024_01_02.
Defined.

(** C9, as stated for every [creds] and all dates, fails in two places.
    Before the year 1000 the URL does not hold the date as [YYYY-MM-DD]: the
    request for the range from 31 December 999 to 1 January 1000 goes to
    [spo2/date/999-12-31/1000-01-01.json].  And with an access token that
    has a character beyond ASCII no request bears it: httpx refuses the
    header and nothing is sent. *)
Lemma day_range_before_1000_counterexample :
  log (call (get_spo2 no_str (scripted [records_found]) day_0999_12_31
               (Some day_1000_01_01)) (VDict stored_creds)).2
  = [(mkRequest GET
        "https://api.fitbit.com/1/user/-/spo2/date/999-12-31/1000-01-01.json"
        {[ "Authorization" := "Bearer expired" ]} None,
      records_found)] ∧
  isoformat day_0999_12_31 = "0999-12-31" ∧
  call (get_spo2 no_str (scripted [records_found]) day_2024_01_01
          (Some day_2024_01_02)) (VDict {[ "access_token" := VStr umlaut_token ]})
    = (Raise UnicodeEncodeError,
       mkWorld (VDict {[ "access_token" := VStr umlaut_token ]}) []).
Proof. vm_compute. repeat split. Qed.

(** With no ["access_token"] in [creds] the header is [Bearer ] followed by
    nothing. *)
Example absent_token_is_empty :
  (λ ev : Event, headers ev.1 !! "Authorization") <$>
    log (call (get_spo2 no_str (scripted [unauthorized]) day_2024_01_01 None)
           (VDict {[ "client_id" := VStr "A" ]})).2
  = [Some "Bearer "].
Proof. vm_compute. reflexivity. Qed.

(** ** Witnesses of the further properties *)

Lemma first_success_returns_body_witness :
  call (get_spo2 no_str (scripted [records_found]) day_2024_01_01 (Some day_2024_01_02))
    (VDict stored_creds)
  = (Return spo2_records,
     mkWorld (VDict stored_creds)
       [(resource_request
           "https://api.fitbit.com/1/user/-/spo2/date/2024-01-01/2024-01-02.json"
           "expired",
         records_found)]).
Proof.
  apply (first_success_returns_body no_str (scripted [records_found])
           (VDict stored_creds) day_2024_01_01 (Some day_2024_01_02)
           _ (mkResponse 200 (Some spo2_records))).
  - vm_compute. reflexivity.
  - reflexivity.
  - reflexivity.
Defined.

Lemma returned_value_is_last_body_witness :
  ∃ (ev : Event) (r : Response),
    last (log (call (get_spo2 no_str expired_then_fresh day_2024_01_01
                       (Some day_2024_01_02)) (VDict stored_creds)).2) = Some ev ∧
    event_method ev = GET ∧
    ev.2 = Responded r ∧ is_success r = true ∧ json r = Some spo2_records.
Proof.
  apply (returned_value_is_last_body no_str expired_then_fresh
           (VDict stored_creds) day_2024_01_01 (Some day_2024_01_02) spo2_records).
  vm_compute. reflexivity.
Defined.

Lemma raw_status_error_is_from_first_get_witness :
  ∃ ev1 : Event,
    log (call (get_spo2 no_str (scripted [server_error]) day_2024_01_01 None)
           (VDict stored_creds)).2 = [ev1] ∧
    event_method ev1 = GET ∧
    ev1.2 = Responded (mkResponse 500 (Some error_body)) ∧
    is_success (mkResponse 500 (Some error_body)) = false ∧
    (status_code (mkResponse 500 (Some error_body)) =? 401)%Z = false.
Proof.
  apply (raw_status_error_is_from_first_get no_str (scripted [server_error])
           (VDict stored_creds) day_2024_01_01 None).
  vm_compute. reflexivity.
Defined.

Lemma no_response_ends_the_call_witness :
  let out :=
    call (get_spo2 no_str (scripted [unauthorized; NoResponse "ConnectTimeout"])
            day_2024_01_01 None) (VDict stored_creds) in
  let ev : Event :=
    (refresh_request no_str (VStr "A") (VStr "B") (VStr "R1"),
     NoResponse "ConnectTimeout") in
  out.1 = Raise (TransportError "ConnectTimeout") ∧ last (log out.2) = Some ev.
Proof.
  apply (no_response_ends_the_call no_str
           (scripted [unauthorized; NoResponse "ConnectTimeout"])
           (VDict stored_creds) day_2024_01_01 None).
  - vm_compute. right. left.
  - reflexivity.
Defined.

Lemma non_string_access_token_witness :
  call (get_spo2 no_str (scripted [records_found]) day_2024_01_01 None)
    (VDict null_token_creds)
  = (Raise TypeError, mkWorld (VDict null_token_creds) []).
Proof.
  apply (non_string_access_token no_str (scripted [records_found])
           null_token_creds day_2024_01_01 None VNone).
  - reflexivity.
  - discriminate.
Defined.

Lemma second_request_is_the_refresh_witness :
  let out :=
    call (get_spo2 no_str (scripted [unauthorized; bad_request]) day_2024_01_01 None)
      (VDict stored_creds) in
  ∃ (ev1 : Event) (c : gmap string value) (rt cid cs : value),
    VDict stored_creds = VDict c ∧
    log out.2 !! 0 = Some ev1 ∧ event_status ev1 = Some 401%Z ∧
    c !! "refresh_token" = Some rt ∧
    c !! "client_id" = Some cid ∧ c !! "client_secret" = Some cs ∧
    (refresh_request no_str (VStr "A") (VStr "B") (VStr "R1"), bad_request).1 =
      mkRequest POST "https://api.fitbit.com/oauth2/token"
        {[ "Authorization" :=
             "Basic " +:+
             b64encode (format_value no_str cid +:+ ":" +:+ format_value no_str cs) ]}
        (Some (<["grant_type" := VStr "refresh_token"]> {[ "refresh_token" := rt ]})).
Proof.
  apply (second_request_is_the_refresh no_str (scripted [unauthorized; bad_request])
           (VDict stored_creds) day_2024_01_01 None).
  vm_compute. reflexivity.
Defined.

Lemma refresh_without_new_refresh_token_witness :
  let target := "https://api.fitbit.com/1/user/-/spo2/date/2024-01-01/2024-01-01.json" in
  call (get_spo2 no_str (scripted [unauthorized; granted_without_refresh])
          day_2024_01_01 None) (VDict stored_creds)
  = (Raise (KeyError "refresh_token"),
     mkWorld (VDict (<["access_token" := VStr "new"]> stored_creds))
       [(resource_request target "expired", unauthorized);
        (refresh_request no_str (VStr "A") (VStr "B") (VStr "R1"),
         granted_without_refresh)]).
Proof.
  apply (refresh_without_new_refresh_token no_str
           (scripted [unauthorized; granted_without_refresh])
           stored_creds day_2024_01_01 None _ _
           (mkResponse 200 (Some (VDict {[ "access_token" := VStr "new" ]})))
           {[ "access_token" := VStr "new" ]} (VStr "new")).
  - vm_compute. reflexivity.
  - reflexivity.
  - vm_compute. reflexivity.
  - reflexivity.
  - reflexivity.
  - reflexivity.
  - reflexivity.
  - reflexivity.
Defined.

Lemma unusable_refresh_response_witness :
  let target := "https://api.fitbit.com/1/user/-/spo2/date/2024-01-01/2024-01-01.json" in
  call (get_spo2 no_str (scripted [unauthorized; granted_a_list])
          day_2024_01_01 None) (VDict stored_creds)
  = (Raise TypeError,
     mkWorld (VDict stored_creds)
       [(resource_request target "expired", unauthorized);
        (refresh_request no_str (VStr "A") (VStr "B") (VStr "R1"), granted_a_list)]).
Proof.
  apply (unusable_refresh_response no_str (scripted [unauthorized; granted_a_list])
           stored_creds day_2024_01_01 None _ _
           (mkResponse 200 (Some (VList []))) (VList [])).
  - vm_compute. reflexivity.
  - reflexivity.
  - vm_compute. reflexivity.
  - reflexivity.
  - reflexivity.
  - reflexivity.
  - reflexivity.
Defined.

Lemma missing_client_keys_witness :
  call (get_spo2 no_str (scripted [unauthorized]) day_2024_01_01 None)
    (VDict creds_without_client_id)
  = (Raise (KeyError (match creds_without_client_id !! "client_id" with
                      | None => "client_id"
                      | Some _ => "client_secret"
                      end)),
     mkWorld (VDict creds_without_client_id)
       [(resource_request
           "https://api.fitbit.com/1/user/-/spo2/date/2024-01-01/2024-01-01.json"
           "expired",
         unauthorized)]).
Proof.
  apply (missing_client_keys no_str (scripted [unauthorized])
           creds_without_client_id day_2024_01_01 None).
  - vm_compute. reflexivity.
  - reflexivity.
  - by eexists.
  - left. reflexivity.
Defined.

Lemma retry_bears_the_stored_token_witness :
  let out :=
    call (get_spo2 no_str (scripted [unauthorized; granted; forbidden])
            day_2024_01_01 None) (VDict stored_creds) in
  let ev3 : Event :=
    (resource_request
       "https://api.fitbit.com/1/user/-/spo2/date/2024-01-01/2024-01-01.json" "new",
     forbidden) in
  ∃ (ev2 : Event) (t : gmap string value) (token : string),
    log out.2 !! 1 = Some ev2 ∧ event_json ev2 = Some (VDict t) ∧
    t !! "access_token" = Some (VStr token) ∧ is_Some (t !! "refresh_token") ∧
    field (creds out.2) "access_token" = t !! "access_token" ∧
    field (creds out.2) "refresh_token" = t !! "refresh_token" ∧
    event_method ev3 = GET ∧
    headers ev3.1 = {[ "Authorization" := "Bearer " +:+ token ]}.
Proof.
  apply (retry_bears_the_stored_token no_str
           (scripted [unauthorized; granted; forbidden])
           (VDict stored_creds) day_2024_01_01 None).
  vm_compute. reflexivity.
Defined.

Lemma non_string_new_token_witness :
  let target := "https://api.fitbit.com/1/user/-/spo2/date/2024-01-01/2024-01-01.json" in
  call (get_spo2 no_str (scripted [unauthorized; granted_a_number])
          day_2024_01_01 None) (VDict stored_creds)
  = (Raise TypeError,
     mkWorld
       (VDict (<["refresh_token" := VStr "R2"]>
                 (<["access_token" := VInt 7]> stored_creds)))
       [(resource_request target "expired", unauthorized);
        (refresh_request no_str (VStr "A") (VStr "B") (VStr "R1"), granted_a_number)]).
Proof.
  apply (non_string_new_token no_str (scripted [unauthorized; granted_a_number])
           stored_creds day_2024_01_01 None _ _
           (mkResponse 200
              (Some (VDict (<["access_token" := VInt 7]>
                              {[ "refresh_token" := VStr "R2" ]}))))
           (<["access_token" := VInt 7]> {[ "refresh_token" := VStr "R2" ]})
           (VInt 7) (VStr "R2")).
  - vm_compute. reflexivity.
  - reflexivity.
  - vm_compute. reflexivity.
  - reflexivity.
  - reflexivity.
  - reflexivity.
  - reflexivity.
  - discriminate.
  - reflexivity.
Defined.

Lemma failed_retry_raises_credentials_error_witness :
  let out :=
    call (get_spo2 no_str (scripted [unauthorized; granted; forbidden])
            day_2024_01_01 (Some day_2024_01_02))
      (VDict stored_creds) in
  let target := "https://api.fitbit.com/1/user/-/spo2/date/2024-01-01/2024-01-02.json" in
  let ev1 : Event := (resource_request target "expired", unauthorized) in
  let ev3 : Event := (resource_request target "new", forbidden) in
  out.1 = Raise (CredentialsError [error_body]
                   (Some (HTTPStatusError (mkResponse 403 (Some error_body))))) ∧
  ∃ ev2 : Event,
    log out.2 = [ev1; ev2; ev3] ∧
    event_method ev1 = GET ∧ event_method ev2 = POST ∧ event_method ev3 = GET ∧
    ∃ r2, ev2.2 = Responded r2 ∧ is_success r2 = true.
Proof.
  apply (failed_retry_raises_credentials_error no_str
           (scripted [unauthorized; granted; forbidden]) (VDict stored_creds)
           day_2024_01_01 (Some day_2024_01_02)).
  - vm_compute. reflexivity.
  - reflexivity.
  - vm_compute. reflexivity.
  - reflexivity.
  - reflexivity.
  - reflexivity.
Defined.

Lemma failed_refresh_leaves_creds_witness :
  let out :=
    call (get_spo2 no_str (scripted [unauthorized; bad_request])
            day_2024_01_01 (Some day_2024_01_02))
      (VDict stored_creds) in
  let target := "https://api.fitbit.com/1/user/-/spo2/date/2024-01-01/2024-01-02.json" in
  let ev1 : Event := (resource_request target "expired", unauthorized) in
  let ev2 : Event := (refresh_request no_str (VStr "A") (VStr "B") (VStr "R1"), bad_request) in
  out.2 = mkWorld (VDict stored_creds) [ev1; ev2] ∧
  event_method ev1 = GET ∧ event_method ev2 = POST ∧
  url ev2.1 = "https://api.fitbit.com/oauth2/token" ∧
  (∀ body : value,
     json (mkResponse 400 (Some error_body)) = Some body →
     out.1 = Raise (CredentialsError [body]
                      (Some (HTTPStatusError (mkResponse 400 (Some error_body)))))).
Proof.
  apply (failed_refresh_leaves_creds no_str (scripted [unauthorized; bad_request])
           (VDict stored_creds) day_2024_01_01 (Some day_2024_01_02)
           _ _ (mkResponse 400 (Some error_body))).
  - vm_compute. reflexivity.
  - reflexivity.
  - vm_compute. reflexivity.
  - reflexivity.
  - reflexivity.
Defined.

Lemma get_access_token_returns_the_pair_witness :
  (get_access_token no_str (scripted [granted]) (mkClient 10)
     "code-1" "A" "B" "http://localhost:8000" (mkWorld VNone [])).1
  = Return (VStr "new", VStr "R2").
Proof.
  apply (get_access_token_returns_the_pair no_str (scripted [granted]) (mkClient 10)
           "code-1" "A" "B" "http://localhost:8000" (mkWorld VNone [])
           (mkRequest POST "https://api.fitbit.com/oauth2/token"
              {[ "Authorization" := "Basic QTpC" ]}
              (Some (<["redirect_uri" := VStr "http://localhost:8000"]>
                       (<["grant_type" := VStr "authorization_code"]>
                          {[ "code" := VStr "code-1" ]}))),
            granted)
           (mkResponse 200 (Some (VDict fresh_tokens))) fresh_tokens).
  - vm_compute. reflexivity.
  - reflexivity.
  - reflexivity.
  - reflexivity.
  - reflexivity.
  - reflexivity.
Defined.

Lemma get_access_token_failures_witness :
  let out :=
    get_access_token no_str (scripted [bad_request]) (mkClient 10)
      "code-1" "A" "B" "http://localhost:8000" (mkWorld VNone []) in
  let r := mkResponse 400 (Some error_body) in
  (is_success r = false → out.1 = Raise (HTTPStatusError r)) ∧
  (∀ t : gmap string value,
     is_success r = true → json r = Some (VDict t) →
     (t !! "access_token" = None → out.1 = Raise (KeyError "access_token")) ∧
     (is_Some (t !! "access_token") → t !! "refresh_token" = None →
      out.1 = Raise (KeyError "refresh_token"))).
Proof.
  apply (get_access_token_failures no_str (scripted [bad_request]) (mkClient 10)
           "code-1" "A" "B" "http://localhost:8000" (mkWorld VNone [])
           (mkRequest POST "https://api.fitbit.com/oauth2/token"
              {[ "Authorization" := "Basic QTpC" ]}
              (Some (<["redirect_uri" := VStr "http://localhost:8000"]>
                       (<["grant_type" := VStr "authorization_code"]>
                          {[ "code" := VStr "code-1" ]}))),
            bad_request)).
  - vm_compute. reflexivity.
  - reflexivity.
Defined.

Lemma first_record_has_first_row : has_row first_record first_row.
Proof. eexists _, _. repeat split; reflexivity. Qed.

Lemma date_only_record_has_no_row (row : Row) : ¬ has_row date_only_record row.
Proof. intros (e & v & [= <-] & _ & Hvalue & _). discriminate Hvalue. Qed.

Lemma well_formed_data_is_appended_witness :
  let out := add_spo2_to_sheet ready_host (VList [first_record]) boot in
  append_calls out.2 = append_calls boot ++ [[first_row]] ∧
  length [first_row] = length [first_record] ∧
  out.1 = match gspread_append_rows ready_host [first_row] with
          | None => Done tt
          | Some error => Failed (HostError error)
          end ∧
  world out.2 = world boot ∧ stdout out.2 = stdout boot ∧ dumped out.2 = dumped boot.
Proof.
  apply (well_formed_data_is_appended ready_host [first_record] [first_row] boot).
  repeat constructor. apply first_record_has_first_row.
Defined.

Lemma malformed_entry_appends_nothing_witness :
  ∃ e : exn,
    add_spo2_to_sheet ready_host
      (VList ([first_record] ++ date_only_record :: [first_record])) boot
    = (Failed (Raised e), boot) ∧
    spo2_row date_only_record boot = (Failed (Raised e), boot) ∧
    (e = TypeError ∨
     ∃ key : string,
       e = KeyError key ∧ key ∈ ["dateTime"; "value"; "min"; "max"; "avg"]).
Proof.
  apply (malformed_entry_appends_nothing ready_host [first_record] [first_row]
           date_only_record [first_record] boot).
  - repeat constructor. apply first_record_has_first_row.
  - apply date_only_record_has_no_row.
Defined.

(** The entry without ["value"] raises the [KeyError] of that key. *)
Example date_only_record_raises :
  add_spo2_to_sheet ready_host
    (VList ([first_record] ++ date_only_record :: [first_record])) boot
  = (Failed (Raised (KeyError "value")), boot).
Proof. reflexivity. Qed.

Lemma main_without_google_auth_witness :
  main no_str expired_then_fresh host_without_google_auth boot
  = (Failed (SystemExit 1),
     mkProcess (mkWorld VNone [])
       ["Google authorized user file not found. Please run auth-main.py first."]
       [] []).
Proof.
  apply (main_without_google_auth no_str expired_then_fresh host_without_google_auth).
  reflexivity.
Defined.

Lemma main_dumps_creds_after_fetch_witness :
  let out := main no_str expired_then_fresh ready_host boot in
  ∃ (loaded : value) (yesterday : datetime) (data : value),
    creds_file_load ready_host = inl loaded ∧
    minus_one_day (datetime_now ready_host) = Some yesterday ∧
    call (get_spo2 no_str expired_then_fresh (mkdatetime 2024 1 1 0 0 0 0)
            (Some yesterday)) loaded
      = (Return data, world out.2) ∧
    dumped out.2 = [creds (world out.2)].
Proof.
  apply (main_dumps_creds_after_fetch no_str expired_then_fresh ready_host
           (VDict (<["refresh_token" := VStr "R2"]>
                     (<["access_token" := VStr "new"]> stored_creds)))).
  vm_compute. left.
Defined.

(** The refresh went through and the retry was refused: the tokens of the
    file are spent, the new ones are in [creds] only, and nothing is
    written. *)
Lemma main_failed_fetch_writes_nothing_witness :
  let target := "https://api.fitbit.com/1/user/-/spo2/date/2024-01-01/2024-02-29.json" in
  main no_str (scripted [unauthorized; granted; forbidden]) ready_host boot
  = (Failed (Raised (CredentialsError [error_body]
                       (Some (HTTPStatusError (mkResponse 403 (Some error_body)))))),
     mkProcess
       (mkWorld
          (VDict (<["refresh_token" := VStr "R2"]>
                    (<["access_token" := VStr "new"]> stored_creds)))
          [(resource_request target "expired", unauthorized);
           (refresh_request no_str (VStr "A") (VStr "B") (VStr "R1"), granted);
           (resource_request target "new", forbidden)])
       ["Retrieving SpO2 data from Fitbit for 2024-02-29..."]
       [] []).
Proof.
  apply (main_failed_fetch_writes_nothing no_str
           (scripted [unauthorized; granted; forbidden]) ready_host
           (VDict stored_creds) day_2024_02_29).
  - reflexivity.
  - reflexivity.
  - reflexivity.
  - reflexivity.
  - vm_compute. reflexivity.
Defined.

Lemma main_appends_after_dump_witness :
  let out := main no_str expired_then_fresh ready_host boot in
  append_calls out.2 = [[first_row]] ∧ dumped out.2 = [creds (world out.2)].
Proof.
  apply (main_appends_after_dump no_str expired_then_fresh ready_host [first_row]).
  vm_compute. left.
Defined.

Lemma main_success_witness :
  let target := "https://api.fitbit.com/1/user/-/spo2/date/2024-01-01/2024-02-29.json" in
  let w :=
    mkWorld
      (VDict (<["refresh_token" := VStr "R2"]>
                (<["access_token" := VStr "new"]> stored_creds)))
      [(resource_request target "expired", unauthorized);
       (refresh_request no_str (VStr "A") (VStr "B") (VStr "R1"), granted);
       (resource_request target "new", records_found)] in
  main no_str expired_then_fresh ready_host boot
  = (Done tt,
     mkProcess w
       ["Retrieving SpO2 data from Fitbit for 2024-02-29...";
        "Retrieved 1 SpO2 record(s) from Fitbit.";
        "Adding data to Google Sheet...";
        "Data added successfully."]
       [creds w] [[first_row]]).
Proof.
  apply (main_success no_str expired_then_fresh ready_host (VDict stored_creds)
           day_2024_02_29 [first_record] [first_row]).
  - reflexivity.
  - reflexivity.
  - reflexivity.
  - reflexivity.
  - vm_compute. reflexivity.
  - repeat constructor. apply first_record_has_first_row.
  - reflexivity.
  - reflexivity.
Defined.

(** The day before, across a leap day and across a year. *)
Example minus_one_day_examples :
  strftime_Y_m_d <$> minus_one_day (mkdatetime 2024 3 1 0 0 0 0) = Some "2024-02-29" ∧
  strftime_Y_m_d <$> minus_one_day (mkdatetime 2023 3 1 0 0 0 0) = Some "2023-02-28" ∧
  strftime_Y_m_d <$> minus_one_day (mkdatetime 2025 1 1 0 0 0 0) = Some "2024-12-31" ∧
  minus_one_day (mkdatetime 1 1 1 0 0 0 0) = None.
Proof. repeat split. Qed.
